(** * URL shortener: short-code allocation and redirect store

    A shallow embedding of the Python service (src/core/config.py,
    src/utils/shortener.py, src/core/database.py, src/api/routes/urls.py)
    and the properties of its store and handlers.

    Conventions of the embedding.
    - A Python [str] is a [string]; every [ascii] stands for the code point
      of the same number (code points 0..255).
    - A Python [int] is a [Z].  The [clicks] column is kept inside SQLite's
      64-bit integer range by any feasible run, so [clicks + 1] is plain
      addition on [Z].
    - The [urls] table is the list of its rows in rowid order; soft deletion
      never removes a row.
    - A function that may raise returns an [Outcome]; code that reads or
      writes the connection, or draws random numbers, threads that state
      through the monad [M]. *)

From Stdlib Require Import List String Ascii ZArith Bool Arith Lia.
From Stdlib Require Import Sorted Permutation.
Import ListNotations.

Local Open Scope string_scope.
Local Open Scope Z_scope.

(* ------------------------------------------------------------------ *)
(** ** Exceptions, outcomes and the state-and-exception monad          *)
(* ------------------------------------------------------------------ *)

Inductive Exception : Type :=
| HTTPException (status_code : Z) (detail : string)
| IntegrityError (message : string)      (* a sqlite3.Error *)
| ValueError
| TypeError
| OverflowError.   (* Python int too large to convert to SQLite INTEGER *)

Inductive Outcome (A : Type) : Type :=
| Return (a : A)
| Raise (e : Exception).

Arguments Return {A} a.
Arguments Raise {A} e.

Definition M (S A : Type) : Type := S -> Outcome A * S.

Definition ret {S A : Type} (a : A) : M S A := fun s => (Return a, s).

Definition raise {S A : Type} (e : Exception) : M S A := fun s => (Raise e, s).

Definition bind {S A B : Type} (m : M S A) (k : A -> M S B) : M S B :=
  fun s =>
    match m s with
    | (Return a, s') => k a s'
    | (Raise e, s') => (Raise e, s')
    end.

Declare Scope monad_scope.
Delimit Scope monad_scope with monad.
Notation "x <- m ;; k" := (bind m (fun x => k))
  (at level 61, m at next level, right associativity) : monad_scope.
Notation "m ;;; k" := (bind m (fun _ => k))
  (at level 61, right associativity) : monad_scope.

(* ------------------------------------------------------------------ *)
(** ** Python string helpers                                           *)
(* ------------------------------------------------------------------ *)

Module Str.

Definition LF : ascii := "010"%char.

Definition code_point (c : ascii) : nat := nat_of_ascii c.

Definition in_range (lo hi c : ascii) : bool :=
  (code_point lo <=? code_point c)%nat && (code_point c <=? code_point hi)%nat.

(** [str.isspace] on one character, for code points below 256. *)
Definition isspace (c : ascii) : bool :=
  let n := code_point c in
  ((9 <=? n)%nat && (n <=? 13)%nat)
  || ((28 <=? n)%nat && (n <=? 32)%nat)
  || (n =? 133)%nat || (n =? 160)%nat.

Definition is_empty (s : string) : bool :=
  match s with EmptyString => true | String _ _ => false end.

Fixpoint lstrip_by (p : ascii -> bool) (s : string) : string :=
  match s with
  | EmptyString => EmptyString
  | String c s' => if p c then lstrip_by p s' else s
  end.

Fixpoint rstrip_by (p : ascii -> bool) (s : string) : string :=
  match s with
  | EmptyString => EmptyString
  | String c s' =>
      let t := rstrip_by p s' in
      if p c && is_empty t then EmptyString else String c t
  end.

(** [s.strip()] *)
Definition strip (s : string) : string := rstrip_by isspace (lstrip_by isspace s).

(** [s.rstrip(c)] for a one-character argument *)
Definition rstrip_char (ch : ascii) (s : string) : string :=
  rstrip_by (Ascii.eqb ch) s.

(** [s.startswith(p)] *)
Definition startswith (s p : string) : bool := String.prefix p s.

(** [s.replace(old, new)] for a one-character [old] *)
Fixpoint replace_char (old : ascii) (new : string) (s : string) : string :=
  match s with
  | EmptyString => EmptyString
  | String c s' =>
      if Ascii.eqb c old then new ++ replace_char old new s'
      else String c (replace_char old new s')
  end.

Fixpoint forall_chars (p : ascii -> bool) (s : string) : bool :=
  match s with
  | EmptyString => true
  | String c s' => p c && forall_chars p s'
  end.

Definition len (s : string) : Z := Z.of_nat (String.length s).

(** [s.split(sep)] for a one-character [sep]: the pieces between the
    separators, empty ones included; never the empty list. *)
Fixpoint split_char (sep : ascii) (s : string) : list string :=
  match s with
  | EmptyString => [EmptyString]
  | String c s' =>
      if Ascii.eqb c sep then EmptyString :: split_char sep s'
      else
        match split_char sep s' with
        | piece :: pieces => String c piece :: pieces
        | [] => [String c EmptyString]
        end
  end.

(** [sep.join(parts)] *)
Definition join (sep : string) (parts : list string) : string :=
  String.concat sep parts.

End Str.

(* ------------------------------------------------------------------ *)
(** ** The fragment of Python's [re] the service uses                  *)
(* ------------------------------------------------------------------ *)

Module Re.

(** Pattern items: [^], [$] and [[class]+].  No flag is set, so [^]
    matches at the start of the string only, and [$] matches at the end
    of the string or just before a newline that ends the string. *)
Inductive item : Type :=
| Caret
| Dollar
| OneOrMore (cls : ascii -> bool).

Definition at_dollar (rest : string) : bool :=
  match rest with
  | EmptyString => true
  | String c EmptyString => Ascii.eqb c Str.LF
  | _ => false
  end.

(** One or more characters of [cls], greedy, giving back characters to
    the continuation [k] when it fails. *)
Fixpoint one_or_more (cls : ascii -> bool) (k : string -> bool) (s : string) : bool :=
  match s with
  | EmptyString => false
  | String c s' => cls c && (one_or_more cls k s' || k s')
  end.

Fixpoint match_here (p : list item) (at_start : bool) (s : string) : bool :=
  match p with
  | [] => true
  | Caret :: p' => at_start && match_here p' at_start s
  | Dollar :: p' => at_dollar s && match_here p' at_start s
  | OneOrMore cls :: p' => one_or_more cls (fun rest => match_here p' false rest) s
  end.

(** [re.match(p, s)] as a truth value: the match is anchored at
    position 0. *)
Definition re_match (p : list item) (s : string) : bool := match_here p true s.

(** [[a-zA-Z0-9]] *)
Definition alnum (c : ascii) : bool :=
  Str.in_range "a" "z" c || Str.in_range "A" "Z" c || Str.in_range "0" "9" c.

End Re.

(* ------------------------------------------------------------------ *)
(** ** src/core/config.py                                              *)
(* ------------------------------------------------------------------ *)

Module Config.

Record Settings : Type := {
  default_short_code_length : Z;
  max_short_code_length : Z;
  min_short_code_length : Z
}.

(** The values of the class when the environment overrides nothing. *)
Definition settings : Settings := {|
  default_short_code_length := 6;
  max_short_code_length := 20;
  min_short_code_length := 3
|}.

End Config.

(* ------------------------------------------------------------------ *)
(** ** Random numbers and clocks                                        *)
(* ------------------------------------------------------------------ *)

Module Random.

(** The generator is a tape of raw draws and a cursor on it. *)
Record RandomState : Type := {
  tape : nat -> nat;
  cursor : nat
}.

(** [floor(random() * n)]: some index below [n]. *)
Definition randbelow (n : nat) (g : RandomState) : nat * RandomState :=
  (Nat.modulo (tape g (cursor g)) n,
   {| tape := tape g; cursor := S (cursor g) |}).

(** [random.choices(population, k=k)] *)
Fixpoint choices (population : list ascii) (k : nat) (g : RandomState)
  : list ascii * RandomState :=
  match k with
  | O => ([], g)
  | S k' =>
      let (i, g1) := randbelow (List.length population) g in
      let (rest, g2) := choices population k' g1 in
      (nth i population Ascii.zero :: rest, g2)
  end.

End Random.

Module Datetime.

(** A [datetime]: its wall-clock reading in microseconds, and the UTC
    offset of its [tzinfo] when it is aware. *)
Record datetime : Type := {
  wall : Z;
  tzinfo : option Z
}.

(** The machine's clock: the UTC instant and the offset of local time. *)
Record Clock : Type := {
  utc_now : Z;
  local_offset : Z
}.

(** [datetime.now(tz)] *)
Definition now (clk : Clock) (tz : option Z) : datetime :=
  match tz with
  | None => {| wall := utc_now clk + local_offset clk; tzinfo := None |}
  | Some off => {| wall := utc_now clk + off; tzinfo := Some off |}
  end.

(** [a > b]: naive values compare by wall clock, aware ones by instant,
    and a naive value against an aware one raises [TypeError]. *)
Definition gt (a b : datetime) : Outcome bool :=
  match tzinfo a, tzinfo b with
  | None, None => Return (wall a >? wall b)
  | Some oa, Some ob => Return (wall a - oa >? wall b - ob)
  | _, _ => Raise TypeError
  end.

(** The instant a value denotes on a machine whose local offset is that
    of [clk]. *)
Definition instant (clk : Clock) (d : datetime) : Z :=
  match tzinfo d with
  | None => wall d - local_offset clk
  | Some off => wall d - off
  end.

End Datetime.

(* ------------------------------------------------------------------ *)
(** ** src/utils/shortener.py                                          *)
(* ------------------------------------------------------------------ *)

Module Shortener.
Import Config Random Datetime.

(** [string.ascii_letters + string.digits] *)
Definition ALPHABET : string :=
  "abcdefghijklmnopqrstuvwxyzABCDEFGHIJKLMNOPQRSTUVWXYZ0123456789".

Definition generate_short_code (cfg : Settings) (length : option Z)
  (g : RandomState) : string * RandomState :=
  let length :=
    match length with
    | Some l => if l =? 0 then default_short_code_length cfg else l
    | None => default_short_code_length cfg
    end in
  let (cs, g') := choices (list_ascii_of_string ALPHABET) (Z.to_nat length) g in
  (string_of_list_ascii cs, g').

(** The pattern [^[a-zA-Z0-9]+$]. *)
Definition short_code_pattern : list Re.item :=
  [Re.Caret; Re.OneOrMore Re.alnum; Re.Dollar].

Definition validate_short_code (cfg : Settings) (code : string) : bool :=
  if Str.is_empty code then false
  else if (Str.len code <? min_short_code_length cfg)
          || (Str.len code >? max_short_code_length cfg) then false
  else if negb (Re.re_match short_code_pattern code) then false
  else true.

Definition normalize_url (url : string) : string :=
  let url := Str.strip url in
  if negb (Str.startswith url "http://" || Str.startswith url "https://")
  then "https://" ++ url
  else url.

Section Expiry.
(** [datetime.fromisoformat] of the standard library; [None] stands
    for its [ValueError]. *)
Variable fromisoformat : string -> option datetime.

Definition parse_expire_time (s : string) : Outcome datetime :=
  match fromisoformat (Str.replace_char "Z" "+00:00" s) with
  | Some d => Return d
  | None => Raise ValueError
  end.

(** The body of the [try] block. *)
Definition is_url_expired_try (clk : Clock) (s : string) : Outcome bool :=
  match parse_expire_time s with
  | Return expire_time => gt (now clk (tzinfo expire_time)) expire_time
  | Raise e => Raise e
  end.

Definition is_url_expired (clk : Clock) (expires_at : option string) : Outcome bool :=
  match expires_at with
  | None => Return false
  | Some s =>
      if Str.is_empty s then Return false
      else
        match is_url_expired_try clk s with
        | Raise ValueError => Return false     (* except (ValueError, *)
        | r => r                               (*         AttributeError) *)
        end
  end.
End Expiry.

Definition create_short_url (base_url short_code : string) : string :=
  Str.rstrip_char "/" base_url ++ "/" ++ short_code.

Definition extract_original_url (full_url : string) : string :=
  let parts := Str.split_char "/" (Str.rstrip_char "/" full_url) in
  match parts with
  | _ :: _ => Str.join "/" (removelast parts)     (* parts[:-1] *)
  | [] => full_url
  end.

End Shortener.

(* ------------------------------------------------------------------ *)
(** ** src/core/database.py                                            *)
(* ------------------------------------------------------------------ *)

Module Db.

(** What a column of NUMERIC affinity holds once a text has been
    inserted, and what Python reads back: the text itself (a [str]) when
    it is not number-like; the integer (an [int]) when it is an integer
    literal within 64 bits; and otherwise the number the engine's
    floating-point conversion makes of the literal (a [float], or an [int]
    when that number is integral), for which the embedding keeps the
    literal. *)
Inductive SqlValue : Type :=
| SqlText (s : string)
| SqlInteger (i : Z)
| SqlNumber (literal : string).

Definition int64_min : Z := -9223372036854775808.

Definition int64_max : Z := 9223372036854775807.

Definition in_int64 (z : Z) : bool := (int64_min <=? z) && (z <=? int64_max).

(** The engine's white space: space, and tab to carriage return. *)
Definition sql_isspace (c : ascii) : bool :=
  let n := Str.code_point c in
  (n =? 32)%nat || ((9 <=? n)%nat && (n <=? 13)%nat).

Definition isdigit (c : ascii) : bool := Str.in_range "0" "9" c.

(** The digits at the front of [s]: their value after [acc], how many
    they are after [count], and the rest of [s]. *)
Fixpoint digits (acc : Z) (count : nat) (s : string) : Z * nat * string :=
  match s with
  | EmptyString => (acc, count, s)
  | String c s' =>
      if isdigit c
      then digits (acc * 10 + Z.of_nat (Str.code_point c - 48)) (S count) s'
      else (acc, count, s)
  end.

(** An optional sign: whether it is a minus, and the rest. *)
Definition sign_of (s : string) : bool * string :=
  match s with
  | String c s' =>
      if Ascii.eqb c "-" then (true, s')
      else if Ascii.eqb c "+" then (false, s')
      else (false, s)
  | EmptyString => (false, s)
  end.

(** The fraction of a literal, when there is one: the kind of literal so
    far (1 an integer, 2 with a fraction), the digits counted, the rest. *)
Definition fraction_of (n1 : nat) (s : string) : nat * nat * string :=
  match s with
  | String c s' =>
      if Ascii.eqb c "."
      then let '(_, n2, rest) := digits 0 0 s' in (2%nat, (n1 + n2)%nat, rest)
      else (1%nat, n1, s)
  | EmptyString => (1%nat, n1, s)
  end.

(** The exponent of a literal, when there is one: the kind of literal,
    whether the exponent that is there has a digit, the rest. *)
Definition exponent_of (eType : nat) (s : string) : nat * bool * string :=
  match s with
  | String c s' =>
      if Ascii.eqb c "e" || Ascii.eqb c "E"
      then
        let (_, after_sign) := sign_of s' in
        let '(_, n3, rest) := digits 0 0 after_sign in
        (S eType, (0 <? n3)%nat, rest)
      else (eType, true, s)
  | EmptyString => (eType, true, s)
  end.

(** The engine's reading of a text as a number: white space, a sign,
    digits, a fraction, an exponent, white space, and nothing else, with
    at least one digit in the significand and in an exponent that is
    there.  [None] when the text is not number-like; otherwise the kind of
    literal (1 for an integer literal) and the signed value of the digits
    before fraction and exponent. *)
Definition atof (s : string) : option (nat * Z) :=
  let z := Str.lstrip_by sql_isspace s in
  if Str.is_empty z then None
  else
    let (negative, after_sign) := sign_of z in
    let '(v, n1, after_digits) := digits 0 0 after_sign in
    let '(eType1, nDigit, after_fraction) := fraction_of n1 after_digits in
    let '(eType, eValid, after_exponent) := exponent_of eType1 after_fraction in
    let rest := Str.lstrip_by sql_isspace after_exponent in
    if Str.is_empty rest && (0 <? nDigit)%nat && eValid
    then Some (eType, if negative then - v else v)
    else None.

Definition number_like (s : string) : bool :=
  match atof s with
  | Some _ => true
  | None => false
  end.

(** NUMERIC affinity on a text that is inserted. *)
Definition numeric_affinity (s : string) : SqlValue :=
  match atof s with
  | None => SqlText s
  | Some (eType, v) =>
      if (eType =? 1)%nat && in_int64 v then SqlInteger v else SqlNumber s
  end.

(** A row of the table [urls].  [is_active] is the INTEGER column that
    holds 1 (true) or 0 (false); [expires_at] is declared TIMESTAMP, which
    gives it NUMERIC affinity; [created_at] holds the text of
    CURRENT_TIMESTAMP, which is never number-like. *)
Record URLRow : Type := {
  id : Z;
  original_url : string;
  short_code : string;
  created_at : string;
  expires_at : option SqlValue;
  clicks : Z;
  is_active : bool
}.

(** The SQL statements of the class, with their parameters. *)
Inductive Statement : Type :=
| SelectActiveByCode (code : string)
    (* SELECT * FROM urls WHERE short_code = ? AND is_active = 1 *)
| SelectById (url_id : Z)
    (* SELECT * FROM urls WHERE id = ? *)
| InsertUrl (url code : string) (expires : option string)
    (* INSERT INTO urls (original_url, short_code, expires_at) VALUES (?, ?, ?) *)
| UpdateOriginalUrl (url code : string)
    (* UPDATE urls SET original_url = ? WHERE short_code = ? *)
| UpdateInactive (code : string)
    (* UPDATE urls SET is_active = 0 WHERE short_code = ? *)
| UpdateClicks (code : string)
    (* UPDATE urls SET clicks = clicks + 1 WHERE short_code = ? *)
| SelectAllActive
    (* SELECT * FROM urls WHERE is_active = 1 ORDER BY created_at DESC *)
| SelectOneByCode (code : string).
    (* SELECT 1 FROM urls WHERE short_code = ? *)

(** The connection: the table, the AUTOINCREMENT counter, the value
    CURRENT_TIMESTAMP evaluates to, and the statements the engine has
    been sent, oldest first. *)
Record Database : Type := {
  urls : list URLRow;
  last_rowid : Z;
  current_timestamp : string;
  executed : list Statement
}.

Definition has_code (code : string) (r : URLRow) : bool :=
  String.eqb (short_code r) code.

Definition set_original_url (url : string) (r : URLRow) : URLRow :=
  {| id := id r; original_url := url; short_code := short_code r;
     created_at := created_at r; expires_at := expires_at r;
     clicks := clicks r; is_active := is_active r |}.

Definition set_inactive (r : URLRow) : URLRow :=
  {| id := id r; original_url := original_url r; short_code := short_code r;
     created_at := created_at r; expires_at := expires_at r;
     clicks := clicks r; is_active := false |}.

Definition add_click (r : URLRow) : URLRow :=
  {| id := id r; original_url := original_url r; short_code := short_code r;
     created_at := created_at r; expires_at := expires_at r;
     clicks := clicks r + 1; is_active := is_active r |}.

(** UPDATE urls SET ... WHERE ...: the new table and the row count
    (every row the WHERE clause selects counts, whether or not the
    assignment changes it). *)
Definition sql_update (set : URLRow -> URLRow) (where_ : URLRow -> bool)
  (t : list URLRow) : list URLRow * Z :=
  (map (fun r => if where_ r then set r else r) t,
   Z.of_nat (List.length (filter where_ t))).

(** ORDER BY created_at DESC, rows of equal [created_at] in rowid
    order. *)
Fixpoint insert_desc (r : URLRow) (sorted : list URLRow) : list URLRow :=
  match sorted with
  | [] => [r]
  | x :: rest =>
      if String.ltb (created_at x) (created_at r) then r :: sorted
      else x :: insert_desc r rest
  end.

Definition order_by_created_at_desc (t : list URLRow) : list URLRow :=
  fold_right insert_desc [] t.

Definition sent (stmt : Statement) (d : Database) : Database :=
  {| urls := urls d; last_rowid := last_rowid d;
     current_timestamp := current_timestamp d;
     executed := executed d ++ [stmt] |}.

Definition with_urls (t : list URLRow) (d : Database) : Database :=
  {| urls := t; last_rowid := last_rowid d;
     current_timestamp := current_timestamp d;
     executed := executed d |}.

(** [cursor.execute(query, params)]: the rows a following [fetchall]
    returns and [cursor.rowcount].  A SELECT 1 yields one result row per
    selected record; only their number is ever used. *)
Definition cursor_execute (stmt : Statement) : M Database (list URLRow * Z) :=
  fun d =>
    let d1 := sent stmt d in
    match stmt with
    | SelectActiveByCode code =>
        (Return (filter (fun r => has_code code r && is_active r) (urls d), -1), d1)
    | SelectById url_id =>
        if in_int64 url_id
        then (Return (filter (fun r => id r =? url_id) (urls d), -1), d1)
        else (Raise OverflowError, d)   (* the parameter cannot be bound *)
    | InsertUrl url code expires =>
        if existsb (has_code code) (urls d)
        then (Raise (IntegrityError "UNIQUE constraint failed: urls.short_code"), d1)
        else
          let row := {| id := last_rowid d + 1; original_url := url;
                        short_code := code;
                        created_at := current_timestamp d;
                        expires_at := option_map numeric_affinity expires;
                        clicks := 0;
                        is_active := true |} in
          (Return ([], 1),
           {| urls := urls d ++ [row]; last_rowid := last_rowid d + 1;
              current_timestamp := current_timestamp d;
              executed := executed d1 |})
    | UpdateOriginalUrl url code =>
        let (t, n) := sql_update (set_original_url url) (has_code code) (urls d) in
        (Return ([], n), with_urls t d1)
    | UpdateInactive code =>
        let (t, n) := sql_update set_inactive (has_code code) (urls d) in
        (Return ([], n), with_urls t d1)
    | UpdateClicks code =>
        let (t, n) := sql_update add_click (has_code code) (urls d) in
        (Return ([], n), with_urls t d1)
    | SelectAllActive =>
        (Return (order_by_created_at_desc (filter is_active (urls d)), -1), d1)
    | SelectOneByCode code =>
        (Return (filter (has_code code) (urls d), -1), d1)
    end.

Local Open Scope monad_scope.

(** [Database.execute]: a [sqlite3.Error] is logged and raised again. *)
Definition execute (stmt : Statement) (fetch : bool)
  : M Database (option (list URLRow)) :=
  r <- cursor_execute stmt ;;
  if fetch then ret (Some (fst r)) else ret None.

Definition get_url_by_code (code : string) : M Database (option URLRow) :=
  results <- execute (SelectActiveByCode code) true ;;
  ret (match results with
       | Some (r :: _) => Some r
       | _ => None
       end).

Definition get_url_by_id (url_id : Z) : M Database (option URLRow) :=
  results <- execute (SelectById url_id) true ;;
  ret (match results with
       | Some (r :: _) => Some r
       | _ => None
       end).

Definition create_url (url code : string) (expires : option string)
  : M Database (option URLRow) :=
  execute (InsertUrl url code expires) false ;;;
  get_url_by_code code.

Definition update_url (code new_original_url : string)
  : M Database (option URLRow) :=
  execute (UpdateOriginalUrl new_original_url code) false ;;;
  get_url_by_code code.

Definition delete_url (code : string) : M Database bool :=
  r <- cursor_execute (UpdateInactive code) ;;
  let deleted := snd r >? 0 in
  ret (Z.b2z deleted >? 0).

Definition increment_clicks (code : string) : M Database unit :=
  execute (UpdateClicks code) false ;;;
  ret tt.

Definition get_all_urls : M Database (list URLRow) :=
  r <- execute SelectAllActive true ;;
  ret (match r with
       | Some (x :: l) => x :: l
       | _ => []
       end).

Definition url_exists (code : string) : M Database bool :=
  results <- execute (SelectOneByCode code) true ;;
  ret (match results with
       | Some (x :: l) => Z.of_nat (List.length (x :: l)) >? 0
       | _ => false
       end).

(** A fresh database after [init_db]. *)
Definition init_db (ts : string) : Database :=
  {| urls := []; last_rowid := 0; current_timestamp := ts; executed := [] |}.

End Db.

(* ------------------------------------------------------------------ *)
(** ** src/models/url.py and src/schemas/url.py                        *)
(* ------------------------------------------------------------------ *)

Module Models.

(** The request body.  [original_url] is [str(url_data.original_url)];
    the model admits a [custom_code] of 3 to 20 characters only. *)
Record URLCreate : Type := {
  original_url : string;
  custom_code : option string;
  expires_at : option Datetime.datetime
}.


Record Request : Type := {
  base_url : string
}.

End Models.

Module Schemas.

Record URLCreateResponse : Type := {
  c_original_url : string;
  c_short_code : string;
  c_short_url : string;
  c_created_at : string;
  c_expires_at : option Db.SqlValue
}.

Record URLInfoResponse : Type := {
  original_url : string;
  short_code : string;
  short_url : string;
  created_at : string;
  expires_at : option Db.SqlValue;
  clicks : Z;
  is_active : bool
}.

Record URLDeleteResponse : Type := {
  message : string;
  d_short_code : string
}.

Record RedirectResponse : Type := {
  url : string;
  status_code : Z
}.

End Schemas.

(* ------------------------------------------------------------------ *)
(** ** src/api/routes/urls.py                                          *)
(* ------------------------------------------------------------------ *)

Module Urls.
Import Config Random Shortener.

(** What a handler runs against: the injected database and the
    process-wide random generator. *)
Record World : Type := {
  db : Db.Database;
  random : RandomState
}.

Definition with_db {A : Type} (m : M Db.Database A) : M World A :=
  fun w =>
    let (r, d) := m (db w) in
    (r, {| db := d; random := random w |}).

Definition with_random {A : Type} (f : RandomState -> A * RandomState) : M World A :=
  fun w =>
    let (a, g) := f (random w) in
    (Return a, {| db := db w; random := g |}).

(** The world after the engine has been sent one more statement that
    leaves the table as it is. *)
Definition sent_by (w : World) (stmt : Db.Statement) : World :=
  {| db := Db.sent stmt (db w); random := random w |}.

Definition get_base_url (request : Models.Request) : string :=
  Str.rstrip_char "/" (Models.base_url request).

Definition not_found {A : Type} : M World A :=
  raise (HTTPException 404 "Short URL not found").

Local Open Scope monad_scope.

(** The [for _ in range(max_attempts)] loop with its [else] branch. *)
Fixpoint generate_unique (cfg : Settings) (attempts : nat) : M World string :=
  match attempts with
  | O => raise (HTTPException 500 "Failed to generate unique short code")
  | S remaining =>
      short_code <- with_random (generate_short_code cfg None) ;;
      taken <- with_db (Db.url_exists short_code) ;;
      if negb taken then ret short_code
      else generate_unique cfg remaining
  end.

Definition max_attempts : nat := 10.

Section Create.
(** [datetime.isoformat] of the standard library. *)
Variable isoformat : Datetime.datetime -> string.

Definition create_short_url_endpoint (cfg : Settings)
  (request : Models.Request) (url_data : Models.URLCreate)
  : M World Schemas.URLCreateResponse :=
  let original_url := normalize_url (Models.original_url url_data) in
  short_code <-
    match Models.custom_code url_data with
    | Some custom_code =>
        if Str.is_empty custom_code then generate_unique cfg max_attempts
        else if negb (validate_short_code cfg custom_code) then
          raise (HTTPException 400
                   "Custom code must be 3-20 alphanumeric characters")
        else
          taken <- with_db (Db.url_exists custom_code) ;;
          if taken then raise (HTTPException 409 "Short code already exists")
          else ret custom_code
    | None => generate_unique cfg max_attempts
    end ;;
  let expires_at := option_map isoformat (Models.expires_at url_data) in
  url_record <- with_db (Db.create_url original_url short_code expires_at) ;;
  let base_url := get_base_url request in
  let short_url := create_short_url base_url short_code in
  match url_record with
  | None => raise TypeError
  | Some r =>
      ret {| Schemas.c_original_url := original_url;
             Schemas.c_short_code := short_code;
             Schemas.c_short_url := short_url;
             Schemas.c_created_at := Db.created_at r;
             Schemas.c_expires_at := Db.expires_at r |}
  end.
End Create.

Definition redirect_to_url (cfg : Settings) (short_code : string)
  : M World Schemas.RedirectResponse :=
  if negb (validate_short_code cfg short_code) then not_found
  else
    url_record <- with_db (Db.get_url_by_code short_code) ;;
    match url_record with
    | None => not_found
    | Some r =>
        with_db (Db.increment_clicks short_code) ;;;
        ret {| Schemas.url := Db.original_url r; Schemas.status_code := 302 |}
    end.

Definition delete_short_url (cfg : Settings) (short_code : string)
  : M World Schemas.URLDeleteResponse :=
  if negb (validate_short_code cfg short_code) then not_found
  else
    deleted <- with_db (Db.delete_url short_code) ;;
    if negb deleted then not_found
    else ret {| Schemas.message := "URL deleted successfully";
                Schemas.d_short_code := short_code |}.

Definition update_short_url (cfg : Settings) (short_code : string)
  (request : Models.Request) (url_data : Models.URLCreate)
  : M World Schemas.URLInfoResponse :=
  if negb (validate_short_code cfg short_code) then not_found
  else
    existing_url <- with_db (Db.get_url_by_code short_code) ;;
    match existing_url with
    | None => not_found
    | Some _ =>
        let original_url := normalize_url (Models.original_url url_data) in
        url_record <- with_db (Db.update_url short_code original_url) ;;
        let base_url := get_base_url request in
        let short_url := create_short_url base_url short_code in
        match url_record with
        | None => raise TypeError
        | Some r =>
            ret {| Schemas.original_url := original_url;
                   Schemas.short_code := short_code;
                   Schemas.short_url := short_url;
                   Schemas.created_at := Db.created_at r;
                   Schemas.expires_at := Db.expires_at r;
                   Schemas.clicks := Db.clicks r;
                   Schemas.is_active := Db.is_active r |}
        end
    end.

Definition get_url_info (cfg : Settings) (short_code : string)
  (request : Models.Request) : M World Schemas.URLInfoResponse :=
  if negb (validate_short_code cfg short_code) then not_found
  else
    url_record <- with_db (Db.get_url_by_code short_code) ;;
    match url_record with
    | None => not_found
    | Some r =>
        let base_url := get_base_url request in
        let short_url := create_short_url base_url short_code in
        ret {| Schemas.original_url := Db.original_url r;
               Schemas.short_code := short_code;
               Schemas.short_url := short_url;
               Schemas.created_at := Db.created_at r;
               Schemas.expires_at := Db.expires_at r;
               Schemas.clicks := Db.clicks r;
               Schemas.is_active := Db.is_active r |}
    end.

Definition list_urls (request : Models.Request)
  : M World (list Schemas.URLInfoResponse) :=
  urls <- with_db Db.get_all_urls ;;
  let base_url := get_base_url request in
  ret (map (fun url =>
              let short_url := create_short_url base_url (Db.short_code url) in
              {| Schemas.original_url := Db.original_url url;
                 Schemas.short_code := Db.short_code url;
                 Schemas.short_url := short_url;
                 Schemas.created_at := Db.created_at url;
                 Schemas.expires_at := Db.expires_at url;
                 Schemas.clicks := Db.clicks url;
                 Schemas.is_active := Db.is_active url |})
           urls).

End Urls.

(* ================================================================== *)
(** * Notions the statements use                                       *)
(* ================================================================== *)

Import Config Random Datetime Shortener.

Definition active_with_code (code : string) (r : Db.URLRow) : bool :=
  Db.has_code code r && Db.is_active r.

(** The row an INSERT adds to the table of [d]. *)
Definition inserted_row (d : Db.Database) (url code : string)
  (expires : option string) : Db.URLRow :=
  {| Db.id := Db.last_rowid d + 1; Db.original_url := url;
     Db.short_code := code; Db.created_at := Db.current_timestamp d;
     Db.expires_at := option_map Db.numeric_affinity expires;
     Db.clicks := 0; Db.is_active := true |}.

(** The connection after a successful [create_url]. *)
Definition after_create (d : Db.Database) (url code : string)
  (expires : option string) : Db.Database :=
  {| Db.urls := Db.urls d ++ [inserted_row d url code expires];
     Db.last_rowid := Db.last_rowid d + 1;
     Db.current_timestamp := Db.current_timestamp d;
     Db.executed := (Db.executed d ++ [Db.InsertUrl url code expires])
                    ++ [Db.SelectActiveByCode code] |}.

(** The table after UPDATE urls SET clicks = clicks + 1 WHERE
    short_code = code. *)
Definition clicked (code : string) (t : list Db.URLRow) : list Db.URLRow :=
  map (fun r => if Db.has_code code r then Db.add_click r else r) t.

(** The first [n] codes the generator produces from state [g], and the
    state it is left in. *)
Fixpoint candidates (cfg : Settings) (n : nat) (g : RandomState)
  : list string * RandomState :=
  match n with
  | O => ([], g)
  | S n' =>
      let (c, g1) := generate_short_code cfg None g in
      let (cs, g2) := candidates cfg n' g1 in
      (c :: cs, g2)
  end.

Definition unused (t : list Db.URLRow) (code : string) : bool :=
  negb (existsb (Db.has_code code) t).

(** How many of the codes [cs] are looked at before an unused one has been
    met: the used ones in front, and the first unused one. *)
Fixpoint tries (t : list Db.URLRow) (cs : list string) : nat :=
  match cs with
  | [] => O
  | c :: cs' => if unused t c then 1%nat else S (tries t cs')
  end.

(** The connection after the engine has been sent [stmts], none of which
    writes. *)
Definition sent_all (stmts : list Db.Statement) (d : Db.Database) : Db.Database :=
  {| Db.urls := Db.urls d; Db.last_rowid := Db.last_rowid d;
     Db.current_timestamp := Db.current_timestamp d;
     Db.executed := Db.executed d ++ stmts |}.

Definition allocation_outcome (found : option string) : Outcome string :=
  match found with
  | Some c => Return c
  | None => Raise (HTTPException 500 "Failed to generate unique short code")
  end.

(** The record-level methods of [Database]. *)
Inductive Op : Type :=
| OpGetUrlByCode (code : string)
| OpGetUrlById (url_id : Z)
| OpCreateUrl (url code : string) (expires : option string)
| OpUpdateUrl (code url : string)
| OpDeleteUrl (code : string)
| OpIncrementClicks (code : string)
| OpGetAllUrls
| OpUrlExists (code : string).

(** The connection a call leaves behind, whether it returns or raises. *)
Definition run_op (o : Op) (d : Db.Database) : Db.Database :=
  match o with
  | OpGetUrlByCode code => snd (Db.get_url_by_code code d)
  | OpGetUrlById url_id => snd (Db.get_url_by_id url_id d)
  | OpCreateUrl url code expires => snd (Db.create_url url code expires d)
  | OpUpdateUrl code url => snd (Db.update_url code url d)
  | OpDeleteUrl code => snd (Db.delete_url code d)
  | OpIncrementClicks code => snd (Db.increment_clicks code d)
  | OpGetAllUrls => snd (Db.get_all_urls d)
  | OpUrlExists code => snd (Db.url_exists code d)
  end.

(** Row [r'] is row [r] at a later time: the same record, its click count
    no smaller. *)
Definition later_row (r r' : Db.URLRow) : Prop :=
  Db.id r' = Db.id r /\ Db.short_code r' = Db.short_code r /\
  Db.clicks r <= Db.clicks r'.

(** The connection after [n] calls of [increment_clicks] in a row. *)
Fixpoint increment_times (n : nat) (code : string) (d : Db.Database)
  : Db.Database :=
  match n with
  | O => d
  | S n' => snd (Db.increment_clicks code (increment_times n' code d))
  end.

(** The table after UPDATE urls SET is_active = 0 WHERE short_code = code. *)
Definition deactivated (code : string) (t : list Db.URLRow) : list Db.URLRow :=
  map (fun r => if Db.has_code code r then Db.set_inactive r else r) t.

(** A string made of one line feed. *)
Definition newline : string := String Str.LF "".

(** The body of the 201 response for a row created on connection [d]. *)
Definition created_response (request : Models.Request) (d : Db.Database)
  (url code : string) (expires : option string) : Schemas.URLCreateResponse :=
  {| Schemas.c_original_url := url;
     Schemas.c_short_code := code;
     Schemas.c_short_url := create_short_url (Urls.get_base_url request) code;
     Schemas.c_created_at := Db.current_timestamp d;
     Schemas.c_expires_at := option_map Db.numeric_affinity expires |}.

(** The short codes of a table, in row order. *)
Definition codes (t : list Db.URLRow) : list string := map Db.short_code t.

(** Settings under which a generated code passes validation. *)
Definition settings_ok (cfg : Settings) : Prop :=
  1 <= default_short_code_length cfg /\
  min_short_code_length cfg <= default_short_code_length cfg
  <= max_short_code_length cfg.

(** The requests the routes of src/api/routes/urls.py serve on a code or
    a body. *)
Inductive Call : Type :=
| CallCreate (request : Models.Request) (url_data : Models.URLCreate)
| CallRedirect (short_code : string)
| CallDelete (short_code : string)
| CallUpdate (short_code : string) (request : Models.Request)
    (url_data : Models.URLCreate)
| CallInfo (short_code : string) (request : Models.Request).

(** The world a request leaves behind. *)
Definition handle (isoformat : datetime -> string) (cfg : Settings)
  (c : Call) (w : Urls.World) : Urls.World :=
  match c with
  | CallCreate request url_data =>
      snd (Urls.create_short_url_endpoint isoformat cfg request url_data w)
  | CallRedirect short_code => snd (Urls.redirect_to_url cfg short_code w)
  | CallDelete short_code => snd (Urls.delete_short_url cfg short_code w)
  | CallUpdate short_code request url_data =>
      snd (Urls.update_short_url cfg short_code request url_data w)
  | CallInfo short_code request => snd (Urls.get_url_info cfg short_code request w)
  end.

(** The engine's clock moves on. *)
Definition at_time (ts : string) (w : Urls.World) : Urls.World :=
  {| Urls.db := {| Db.urls := Db.urls (Urls.db w);
                   Db.last_rowid := Db.last_rowid (Urls.db w);
                   Db.current_timestamp := ts;
                   Db.executed := Db.executed (Urls.db w) |};
     Urls.random := Urls.random w |}.

(** The worlds the service gets into: it starts on a fresh database and
    serves requests, while time passes. *)
Inductive reachable (isoformat : datetime -> string) (cfg : Settings)
  : Urls.World -> Prop :=
| reachable_start (ts : string) (g : RandomState) :
    reachable isoformat cfg {| Urls.db := Db.init_db ts; Urls.random := g |}
| reachable_call (c : Call) (w : Urls.World) :
    reachable isoformat cfg w -> reachable isoformat cfg (handle isoformat cfg c w)
| reachable_tick (ts : string) (w : Urls.World) :
    reachable isoformat cfg w -> reachable isoformat cfg (at_time ts w).

(** The length [generate_short_code] works with: [length or
    settings.default_short_code_length]. *)
Definition effective_length (cfg : Settings) (length : option Z) : Z :=
  match length with
  | Some l => if l =? 0 then default_short_code_length cfg else l
  | None => default_short_code_length cfg
  end.

(** No character of [s] is [ch]. *)
Definition free_of (ch : ascii) (s : string) : bool :=
  Str.forall_chars (fun c => negb (Ascii.eqb c ch)) s.

(** Row [r'] is row [r] at a later time: id, code, creation time and
    expiration are those of [r], an inactive row has stayed inactive, and
    the click count is no smaller. *)
Definition same_record (r r' : Db.URLRow) : Prop :=
  Db.id r' = Db.id r /\ Db.short_code r' = Db.short_code r /\
  Db.created_at r' = Db.created_at r /\ Db.expires_at r' = Db.expires_at r /\
  (Db.is_active r = false -> Db.is_active r' = false) /\
  Db.clicks r <= Db.clicks r'.

(** Calls of the methods, one after the other. *)
Fixpoint run_ops (ops : list Op) (d : Db.Database) : Db.Database :=
  match ops with
  | [] => d
  | o :: ops' => run_ops ops' (run_op o d)
  end.

(** The AUTOINCREMENT discipline: ids are pairwise different and none
    exceeds the counter. *)
Definition ids_ok (d : Db.Database) : Prop :=
  0 <= Db.last_rowid d /\
  NoDup (map Db.id (Db.urls d)) /\
  Forall (fun r => 1 <= Db.id r <= Db.last_rowid d) (Db.urls d).

(** Row [a] was not created before row [b], by the text of
    [created_at]. *)
Definition not_older (a b : Db.URLRow) : Prop :=
  String.ltb (Db.created_at a) (Db.created_at b) = false.

(** Requests served one after the other. *)
Fixpoint serve (isoformat : datetime -> string) (cfg : Settings)
  (calls : list Call) (w : Urls.World) : Urls.World :=
  match calls with
  | [] => w
  | c :: rest => serve isoformat cfg rest (handle isoformat cfg c w)
  end.

Definition failure {A : Type} (o : Outcome A) : option Exception :=
  match o with
  | Raise e => Some e
  | Return _ => None
  end.

(** The exception a request ends with, if it ends with one. *)
Definition raised (isoformat : datetime -> string) (cfg : Settings)
  (c : Call) (w : Urls.World) : option Exception :=
  match c with
  | CallCreate request url_data =>
      failure (fst (Urls.create_short_url_endpoint isoformat cfg request url_data w))
  | CallRedirect short_code => failure (fst (Urls.redirect_to_url cfg short_code w))
  | CallDelete short_code => failure (fst (Urls.delete_short_url cfg short_code w))
  | CallUpdate short_code request url_data =>
      failure (fst (Urls.update_short_url cfg short_code request url_data w))
  | CallInfo short_code request =>
      failure (fst (Urls.get_url_info cfg short_code request w))
  end.

(** The body of the info response for row [r]. *)
Definition info_response (request : Models.Request) (code : string)
  (r : Db.URLRow) : Schemas.URLInfoResponse :=
  {| Schemas.original_url := Db.original_url r;
     Schemas.short_code := code;
     Schemas.short_url := create_short_url (Urls.get_base_url request) code;
     Schemas.created_at := Db.created_at r;
     Schemas.expires_at := Db.expires_at r;
     Schemas.clicks := Db.clicks r;
     Schemas.is_active := Db.is_active r |}.

(* ------------------------------------------------------------------ *)
(** ** Sample data                                                     *)
(* ------------------------------------------------------------------ *)

Module Sample.

Definition row (n : Z) (code : string) (expires : option string)
  (hits : Z) (active : bool) : Db.URLRow :=
  {| Db.id := n; Db.original_url := "https://example.com/";
     Db.short_code := code; Db.created_at := "2024-05-01 10:00:00";
     Db.expires_at := option_map Db.SqlText expires;
     Db.clicks := hits; Db.is_active := active |}.

Definition database (t : list Db.URLRow) : Db.Database :=
  {| Db.urls := t; Db.last_rowid := Z.of_nat (List.length t);
     Db.current_timestamp := "2024-06-01 12:00:00"; Db.executed := [] |}.

(** A generator whose every draw is 0: it spells ["aaaaaa"]. *)
Definition zeros : RandomState := {| tape := fun _ => O; cursor := O |}.

(** A generator whose draws count up from 0: it spells ["abcdef"],
    ["ghijkl"], ... *)
Definition counting : RandomState := {| tape := fun n => n; cursor := O |}.

Definition world (t : list Db.URLRow) (g : RandomState) : Urls.World :=
  {| Urls.db := database t; Urls.random := g |}.

Definition request : Models.Request := {| Models.base_url := "http://testserver/" |}.

Definition body (custom : option string) : Models.URLCreate :=
  {| Models.original_url := "https://example.com/";
     Models.custom_code := custom; Models.expires_at := None |}.

(** A parser that knows one timestamp, midnight of 1 January 2020 UTC,
    with and without its offset. *)
Definition fromisoformat (s : string) : option datetime :=
  if String.eqb s "2020-01-01T00:00:00+00:00"
  then Some {| wall := 1577836800000000; tzinfo := Some 0 |}
  else if String.eqb s "2020-01-01T00:00:00"
  then Some {| wall := 1577836800000000; tzinfo := None |}
  else None.

Definition isoformat (d : datetime) : string :=
  match tzinfo d with
  | Some _ => "2020-01-01T00:00:00+00:00"
  | None => "2020-01-01T00:00:00"
  end.

(** Noon of 1 June 2024 UTC, on a machine two hours east of Greenwich. *)
Definition clock : Clock :=
  {| utc_now := 1717243200000000; local_offset := 7200000000 |}.

End Sample.

(* ================================================================== *)
(** * Properties                                                        *)
(* ================================================================== *)

(** ** The helper functions on examples of the test suite *)

Example validate_abc123 :
  Shortener.validate_short_code Config.settings "abc123" = true.
Proof. reflexivity. Qed.

Example validate_too_short :
  Shortener.validate_short_code Config.settings "ab" = false.
Proof. reflexivity. Qed.

Example validate_hyphen :
  Shortener.validate_short_code Config.settings "abc-123" = false.
Proof. reflexivity. Qed.

Example normalize_bare :
  Shortener.normalize_url "example.com" = "https://example.com".
Proof. reflexivity. Qed.

Example normalize_padded :
  Shortener.normalize_url "  https://x.com  " = "https://x.com".
Proof. reflexivity. Qed.

Example validate_test_suite :
  forallb (validate_short_code settings)
    ["abc"; "abc123"; "Abc123"; "a1b2c3"; "shortcode"] = true /\
  existsb (validate_short_code settings)
    [""; "ab"; "aaaaaaaaaaaaaaaaaaaaaaaaa"; "abc@123"; "abc def"; "abc-123"]
  = false.
Proof. split; reflexivity. Qed.

Example generate_six_characters :
  generate_short_code settings None Sample.counting
  = ("abcdef", {| tape := fun n => n; cursor := 6 |}) /\
  fst (generate_short_code settings (Some 4) Sample.counting) = "abcd".
Proof. split; reflexivity. Qed.

Example create_short_url_strips_slash :
  create_short_url "http://testserver/" "abc123" = "http://testserver/abc123".
Proof. reflexivity. Qed.


(* ------------------------------------------------------------------ *)
(** ** Lists and result sets                                           *)
(* ------------------------------------------------------------------ *)

Section ResultSets.
Context {A : Type}.
Variable p : A -> bool.

Lemma first_of_filter (l : list A) :
  match filter p l with x :: _ => Some x | [] => None end = find p l.
Proof.
  induction l as [|a l IH]; simpl; [reflexivity|].
  destruct (p a); [reflexivity | exact IH].
Qed.

Lemma filter_nil_existsb (l : list A) :
  filter p l = [] -> existsb p l = false.
Proof.
  induction l as [|a l IH]; simpl; [reflexivity|].
  destruct (p a); [discriminate | exact IH].
Qed.

Lemma filter_cons_existsb (l : list A) x t :
  filter p l = x :: t -> existsb p l = true.
Proof.
  induction l as [|a l IH]; simpl; [discriminate|].
  destruct (p a); [reflexivity | exact IH].
Qed.

Lemma existsb_false_find (q : A -> bool) (l : list A) :
  existsb p l = false -> (forall x, q x = true -> p x = true) -> find q l = None.
Proof.
  intros H Hq. induction l as [|a l IH]; simpl in *; [reflexivity|].
  apply orb_false_iff in H. destruct H as [Ha Hl].
  destruct (q a) eqn:E; [apply Hq in E; congruence | auto].
Qed.
End ResultSets.

(* ------------------------------------------------------------------ *)
(** ** What each method of [Database] computes                         *)
(* ------------------------------------------------------------------ *)

Lemma url_exists_run code d :
  Db.url_exists code d =
  (Return (existsb (Db.has_code code) (Db.urls d)),
   Db.sent (Db.SelectOneByCode code) d).
Proof.
  unfold Db.url_exists, Db.execute, bind, ret; simpl.
  destruct (filter (Db.has_code code) (Db.urls d)) as [|x t] eqn:E.
  - now rewrite (filter_nil_existsb _ _ E).
  - rewrite (filter_cons_existsb _ _ _ _ E).
    reflexivity.
Qed.

Lemma get_url_by_code_run code d :
  Db.get_url_by_code code d =
  (Return (find (active_with_code code) (Db.urls d)),
   Db.sent (Db.SelectActiveByCode code) d).
Proof.
  unfold Db.get_url_by_code, Db.execute, bind, ret; simpl.
  now rewrite <- (first_of_filter (active_with_code code)).
Qed.

Lemma increment_clicks_run code d :
  Db.increment_clicks code d =
  (Return tt,
   Db.with_urls (map (fun r => if Db.has_code code r then Db.add_click r else r)
                     (Db.urls d))
                (Db.sent (Db.UpdateClicks code) d)).
Proof. reflexivity. Qed.

Lemma delete_url_run code d :
  Db.delete_url code d =
  (Return (existsb (Db.has_code code) (Db.urls d)),
   Db.with_urls (map (fun r => if Db.has_code code r then Db.set_inactive r else r)
                     (Db.urls d))
                (Db.sent (Db.UpdateInactive code) d)).
Proof.
  unfold Db.delete_url, Db.cursor_execute, Db.sql_update, bind, ret; simpl.
  destruct (filter (Db.has_code code) (Db.urls d)) as [|x t] eqn:E.
  - now rewrite (filter_nil_existsb _ _ E).
  - now rewrite (filter_cons_existsb _ _ _ _ E).
Qed.

Lemma has_code_iff code r : Db.has_code code r = true <-> Db.short_code r = code.
Proof. unfold Db.has_code. apply String.eqb_eq. Qed.

Lemma has_code_self r : Db.has_code (Db.short_code r) r = true.
Proof. now apply has_code_iff. Qed.

Lemma code_taken_iff code (t : list Db.URLRow) :
  existsb (Db.has_code code) t = true <->
  exists r, In r t /\ Db.short_code r = code.
Proof.
  rewrite existsb_exists. split; intros [r [Hin H]]; exists r; split; auto;
    now apply has_code_iff.
Qed.

(** With the UNIQUE constraint on [short_code], an active row is the one
    the lookup by its code finds. *)
Lemma find_active_unique (t : list Db.URLRow) r :
  NoDup (map Db.short_code t) -> In r t -> Db.is_active r = true ->
  find (active_with_code (Db.short_code r)) t = Some r.
Proof.
  induction t as [|x t IH]; intros Hnd Hin Hact; [contradiction|].
  simpl in Hnd. inversion Hnd as [|? ? Hx Hnd']; subst.
  simpl. destruct Hin as [->|Hin].
  - unfold active_with_code. now rewrite has_code_self, Hact.
  - unfold active_with_code at 1.
    destruct (Db.has_code (Db.short_code r) x) eqn:E.
    + exfalso. apply Hx. apply has_code_iff in E. rewrite E.
      now apply in_map.
    + simpl. now apply IH.
Qed.

(* ------------------------------------------------------------------ *)
(** ** Steps of the monad                                              *)
(* ------------------------------------------------------------------ *)

Lemma bind_run_return {S A B : Type} (m : M S A) (k : A -> M S B) s a s' :
  m s = (Return a, s') -> bind m k s = k a s'.
Proof. intros H. unfold bind. now rewrite H. Qed.

Lemma bind_run_raise {S A B : Type} (m : M S A) (k : A -> M S B) s e s' :
  m s = (Raise e, s') -> bind m k s = (Raise e, s').
Proof. intros H. unfold bind. now rewrite H. Qed.

Lemma with_db_url_exists code (w : Urls.World) :
  Urls.with_db (Db.url_exists code) w =
  (Return (existsb (Db.has_code code) (Db.urls (Urls.db w))),
   Urls.sent_by w (Db.SelectOneByCode code)).
Proof. unfold Urls.with_db. now rewrite url_exists_run. Qed.

Lemma with_db_get_url_by_code code (w : Urls.World) :
  Urls.with_db (Db.get_url_by_code code) w =
  (Return (find (active_with_code code) (Db.urls (Urls.db w))),
   Urls.sent_by w (Db.SelectActiveByCode code)).
Proof. unfold Urls.with_db. now rewrite get_url_by_code_run. Qed.

Lemma with_db_run {A : Type} (m : M Db.Database A) (w : Urls.World) :
  Urls.with_db m w =
  (fst (m (Urls.db w)),
   {| Urls.db := snd (m (Urls.db w)); Urls.random := Urls.random w |}).
Proof. unfold Urls.with_db. now destruct (m (Urls.db w)). Qed.

(* ------------------------------------------------------------------ *)
(** ** Creation and lookup                                             *)
(* ------------------------------------------------------------------ *)

Lemma find_snoc {A : Type} (p : A -> bool) (l : list A) (x : A) :
  find p (l ++ [x]) =
  match find p l with
  | Some y => Some y
  | None => if p x then Some x else None
  end.
Proof.
  induction l as [|a l IH]; simpl; [reflexivity|].
  destruct (p a); [reflexivity | exact IH].
Qed.

Lemma find_fresh_code code (t : list Db.URLRow) :
  existsb (Db.has_code code) t = false -> find (active_with_code code) t = None.
Proof.
  intros H. apply (existsb_false_find _ _ _ H).
  unfold active_with_code. intros x Hx. now apply andb_true_iff in Hx.
Qed.

Lemma create_url_run d url code expires :
  existsb (Db.has_code code) (Db.urls d) = false ->
  Db.create_url url code expires d =
  (Return (Some (inserted_row d url code expires)),
   after_create d url code expires).
Proof.
  intros Hfresh.
  unfold Db.create_url, Db.execute, bind at 1 2. cbn [Db.cursor_execute].
  rewrite Hfresh. unfold ret at 1. rewrite get_url_by_code_run.
  cbn [Db.urls]. rewrite find_snoc, (find_fresh_code _ _ Hfresh).
  unfold active_with_code, inserted_row at 1. cbn [Db.short_code Db.is_active].
  unfold Db.has_code. cbn [Db.short_code]. rewrite String.eqb_refl.
  reflexivity.
Qed.

Lemma create_url_taken d url code expires :
  existsb (Db.has_code code) (Db.urls d) = true ->
  Db.create_url url code expires d =
  (Raise (IntegrityError "UNIQUE constraint failed: urls.short_code"),
   Db.sent (Db.InsertUrl url code expires) d).
Proof.
  intros Htaken.
  unfold Db.create_url, Db.execute, bind at 1 2. cbn [Db.cursor_execute].
  now rewrite Htaken.
Qed.

Lemma numeric_affinity_text (s : string) :
  Db.number_like s = false -> Db.numeric_affinity s = Db.SqlText s.
Proof.
  unfold Db.number_like, Db.numeric_affinity.
  now destruct (Db.atof s) as [[eType v]|].
Qed.

(** C8.  Creating a row under a code no row carries, then looking the
    code up, returns the created row: its [original_url] is the URL
    given, its [clicks] is 0 and it is active.  Its code is the code
    given, and its expiration is what NUMERIC affinity makes of the text
    given: the text itself unless it is number-like. *)
Theorem create_then_get_by_code :
  forall (d : Db.Database) (url code : string) (expires : option string),
    fst (Db.url_exists code d) = Return false ->
    exists r d1,
      Db.create_url url code expires d = (Return (Some r), d1) /\
      fst (Db.get_url_by_code code d1) = Return (Some r) /\
      Db.original_url r = url /\
      Db.clicks r = 0 /\
      Db.is_active r = true /\
      Db.short_code r = code /\
      Db.expires_at r = option_map Db.numeric_affinity expires /\
      (forall s, expires = Some s -> Db.number_like s = false ->
                 Db.expires_at r = Some (Db.SqlText s)).
Proof.
  intros d url code expires Hfree.
  rewrite url_exists_run in Hfree. simpl in Hfree.
  assert (Hfresh : existsb (Db.has_code code) (Db.urls d) = false)
    by congruence.
  exists (inserted_row d url code expires), (after_create d url code expires).
  split; [now apply create_url_run|].
  split; [|repeat split; try reflexivity].
  - rewrite get_url_by_code_run. cbn [fst after_create Db.urls].
    rewrite find_snoc, (find_fresh_code _ _ Hfresh).
    unfold active_with_code, Db.has_code. cbn. now rewrite String.eqb_refl.
  - intros s -> Hs. cbn. now rewrite (numeric_affinity_text _ Hs).
Qed.

Lemma create_then_get_by_code_witness :
  exists r d1,
    Db.create_url "https://example.com/" "testcode" (Some "007")
      (Sample.database [Sample.row 1 "other1" None 3 true])
    = (Return (Some r), d1) /\
    fst (Db.get_url_by_code "testcode" d1) = Return (Some r) /\
    Db.original_url r = "https://example.com/" /\
    Db.clicks r = 0 /\
    Db.is_active r = true /\
    Db.short_code r = "testcode" /\
    Db.expires_at r = Some (Db.SqlInteger 7).
Proof.
  destruct (create_then_get_by_code
              (Sample.database [Sample.row 1 "other1" None 3 true])
              "https://example.com/" "testcode" (Some "007") eq_refl)
    as (r & d1 & Hcreate & Hget & Hurl & Hclicks & Hactive & Hcode & Hexp & _).
  exists r, d1. repeat split; assumption.
Defined.

(* ------------------------------------------------------------------ *)
(** ** Expiration                                                      *)
(* ------------------------------------------------------------------ *)

Lemma redirect_run_found cfg code (w : Urls.World) r :
  validate_short_code cfg code = true ->
  find (active_with_code code) (Db.urls (Urls.db w)) = Some r ->
  Urls.redirect_to_url cfg code w =
  (Return {| Schemas.url := Db.original_url r; Schemas.status_code := 302 |},
   {| Urls.db :=
        Db.with_urls (clicked code (Db.urls (Urls.db w)))
          (Db.sent (Db.UpdateClicks code)
             (Db.sent (Db.SelectActiveByCode code) (Urls.db w)));
      Urls.random := Urls.random w |}).
Proof.
  intros Hvalid Hfind. unfold Urls.redirect_to_url.
  rewrite Hvalid. cbn [negb].
  rewrite (bind_run_return _ _ _ _ _ (with_db_get_url_by_code code w)).
  rewrite Hfind. reflexivity.
Qed.

Lemma redirect_run_missing cfg code (w : Urls.World) :
  validate_short_code cfg code = true ->
  find (active_with_code code) (Db.urls (Urls.db w)) = None ->
  Urls.redirect_to_url cfg code w =
  (Raise (HTTPException 404 "Short URL not found"),
   Urls.sent_by w (Db.SelectActiveByCode code)).
Proof.
  intros Hvalid Hfind. unfold Urls.redirect_to_url.
  rewrite Hvalid. cbn [negb].
  rewrite (bind_run_return _ _ _ _ _ (with_db_get_url_by_code code w)).
  rewrite Hfind. reflexivity.
Qed.

(** C3.  Expiration does not gate visibility.  In a table whose codes are
    unique, an active row whose expiration is a timestamp that
    [is_url_expired] reports as expired is still what the lookup by its
    code returns; and when the code passes validation the redirect answers
    302 to the row's URL and counts the click. *)
Theorem expired_row_still_resolves :
  forall (fromisoformat : string -> option datetime) (clk : Clock)
         (cfg : Settings) (w : Urls.World) (r : Db.URLRow) (expires : string),
    NoDup (map Db.short_code (Db.urls (Urls.db w))) ->
    In r (Db.urls (Urls.db w)) ->
    Db.is_active r = true ->
    Db.expires_at r = Some (Db.SqlText expires) ->
    is_url_expired fromisoformat clk (Some expires) = Return true ->
    fst (Db.get_url_by_code (Db.short_code r) (Urls.db w)) = Return (Some r) /\
    (validate_short_code cfg (Db.short_code r) = true ->
     fst (Urls.redirect_to_url cfg (Db.short_code r) w)
     = Return {| Schemas.url := Db.original_url r; Schemas.status_code := 302 |} /\
     Db.urls (Urls.db (snd (Urls.redirect_to_url cfg (Db.short_code r) w)))
     = clicked (Db.short_code r) (Db.urls (Urls.db w))).
Proof.
  intros fromisoformat clk cfg w r expires Hnd Hin Hact _ _.
  pose proof (find_active_unique _ _ Hnd Hin Hact) as Hfind.
  split.
  - rewrite get_url_by_code_run. simpl. now rewrite Hfind.
  - intros Hvalid. now rewrite (redirect_run_found _ _ _ _ Hvalid Hfind).
Qed.

Lemma expired_row_still_resolves_witness :
  let r := Sample.row 1 "old123" (Some "2020-01-01T00:00:00Z") 4 true in
  let w := Sample.world [Sample.row 7 "zzz999" None 0 true; r] Sample.zeros in
  Db.expires_at r = Some (Db.numeric_affinity "2020-01-01T00:00:00Z") /\
  is_url_expired Sample.fromisoformat Sample.clock (Some "2020-01-01T00:00:00Z")
  = Return true /\
  fst (Db.get_url_by_code "old123" (Urls.db w)) = Return (Some r) /\
  (validate_short_code settings "old123" = true ->
   fst (Urls.redirect_to_url settings "old123" w)
   = Return {| Schemas.url := "https://example.com/"; Schemas.status_code := 302 |} /\
   Db.urls (Urls.db (snd (Urls.redirect_to_url settings "old123" w)))
   = clicked "old123" (Db.urls (Urls.db w))).
Proof.
  split; [reflexivity|]. split; [reflexivity|].
  apply (expired_row_still_resolves Sample.fromisoformat Sample.clock settings
           (Sample.world [Sample.row 7 "zzz999" None 0 true;
                          Sample.row 1 "old123" (Some "2020-01-01T00:00:00Z") 4 true]
                         Sample.zeros)
           (Sample.row 1 "old123" (Some "2020-01-01T00:00:00Z") 4 true)
           "2020-01-01T00:00:00Z").
  - repeat constructor; simpl; intuition discriminate.
  - simpl; auto.
  - reflexivity.
  - reflexivity.
  - reflexivity.
Defined.

(** C9.  [is_url_expired] never raises.  It answers false when the
    timestamp is absent or empty; when the timestamp parses, it answers
    whether the current instant is strictly later than the parsed one, both
    read in the timestamp's own time zone (local time when it names none);
    when the timestamp does not parse, it answers false. *)
Theorem is_url_expired_total :
  forall (fromisoformat : string -> option datetime) (clk : Clock),
    is_url_expired fromisoformat clk None = Return false /\
    is_url_expired fromisoformat clk (Some "") = Return false /\
    (forall s d,
        s <> "" ->
        fromisoformat (Str.replace_char "Z" "+00:00" s) = Some d ->
        is_url_expired fromisoformat clk (Some s)
        = Return (utc_now clk >? instant clk d) /\
        gt (now clk (tzinfo d)) d = Return (utc_now clk >? instant clk d)) /\
    (forall s,
        fromisoformat (Str.replace_char "Z" "+00:00" s) = None ->
        is_url_expired fromisoformat clk (Some s) = Return false) /\
    (forall e, exists b, is_url_expired fromisoformat clk e = Return b).
Proof.
  intros fromisoformat clk.
  assert (Hcmp : forall d,
             gt (now clk (tzinfo d)) d = Return (utc_now clk >? instant clk d)).
  { intros [wl [off|]]; unfold gt, now, instant; cbn [tzinfo wall]; f_equal.
    - f_equal; lia.
    - rewrite !Z.gtb_ltb. apply eq_true_iff_eq.
      rewrite !Z.ltb_lt. lia. }
  assert (Hparsed : forall s d,
             s <> "" ->
             fromisoformat (Str.replace_char "Z" "+00:00" s) = Some d ->
             is_url_expired fromisoformat clk (Some s)
             = Return (utc_now clk >? instant clk d)).
  { intros s d Hs Hd. unfold is_url_expired.
    destruct s as [|c s']; [congruence|]. cbn [Str.is_empty].
    unfold is_url_expired_try, parse_expire_time. rewrite Hd.
    now rewrite Hcmp. }
  assert (Hbad : forall s,
             fromisoformat (Str.replace_char "Z" "+00:00" s) = None ->
             is_url_expired fromisoformat clk (Some s) = Return false).
  { intros s Hd. unfold is_url_expired.
    destruct (Str.is_empty s); [reflexivity|].
    unfold is_url_expired_try, parse_expire_time. now rewrite Hd. }
  repeat split; auto.
  intros [s|]; [|now exists false].
  destruct s as [|c s']; [now exists false|].
  destruct (fromisoformat (Str.replace_char "Z" "+00:00" (String c s')))
    as [d|] eqn:E.
  - eexists. apply (Hparsed _ d); [discriminate | exact E].
  - eexists. now apply Hbad.
Qed.

Lemma is_url_expired_total_witness :
  is_url_expired Sample.fromisoformat Sample.clock (Some "2020-01-01T00:00:00Z")
  = Return true /\
  is_url_expired Sample.fromisoformat Sample.clock (Some "next tuesday")
  = Return false.
Proof.
  destruct (is_url_expired_total Sample.fromisoformat Sample.clock)
    as (_ & _ & Hparsed & Hbad & _).
  split.
  - exact (proj1 (Hparsed "2020-01-01T00:00:00Z"
                    {| wall := 1577836800000000; tzinfo := Some 0 |}
                    ltac:(discriminate) eq_refl)).
  - exact (Hbad "next tuesday" eq_refl).
Defined.

(* ------------------------------------------------------------------ *)
(** ** Format validation at the public interface                       *)
(* ------------------------------------------------------------------ *)

(** C10.  Redirect, delete, update and info answer a code that fails
    [validate_short_code] with the 404 and leave the world exactly as it
    was: no row changes, and the engine is sent no statement. *)
Theorem invalid_code_never_reaches_store :
  forall (cfg : Settings) (code : string) (request : Models.Request)
         (url_data : Models.URLCreate) (w : Urls.World),
    validate_short_code cfg code = false ->
    Urls.redirect_to_url cfg code w
    = (Raise (HTTPException 404 "Short URL not found"), w) /\
    Urls.delete_short_url cfg code w
    = (Raise (HTTPException 404 "Short URL not found"), w) /\
    Urls.update_short_url cfg code request url_data w
    = (Raise (HTTPException 404 "Short URL not found"), w) /\
    Urls.get_url_info cfg code request w
    = (Raise (HTTPException 404 "Short URL not found"), w).
Proof.
  intros cfg code request url_data w Hbad.
  unfold Urls.redirect_to_url, Urls.delete_short_url, Urls.update_short_url,
    Urls.get_url_info.
  rewrite Hbad. cbn [negb]. unfold Urls.not_found, raise.
  repeat split; reflexivity.
Qed.

Lemma invalid_code_never_reaches_store_witness :
  let w := Sample.world [Sample.row 1 "ab" None 0 true] Sample.zeros in
  Urls.redirect_to_url settings "ab" w
  = (Raise (HTTPException 404 "Short URL not found"), w) /\
  Urls.delete_short_url settings "ab" w
  = (Raise (HTTPException 404 "Short URL not found"), w) /\
  Urls.update_short_url settings "ab" Sample.request (Sample.body None) w
  = (Raise (HTTPException 404 "Short URL not found"), w) /\
  Urls.get_url_info settings "ab" Sample.request w
  = (Raise (HTTPException 404 "Short URL not found"), w).
Proof.
  exact (invalid_code_never_reaches_store settings "ab" Sample.request
           (Sample.body None)
           (Sample.world [Sample.row 1 "ab" None 0 true] Sample.zeros)
           eq_refl).
Defined.

(* ------------------------------------------------------------------ *)
(** ** Allocation of a generated code                                  *)
(* ------------------------------------------------------------------ *)

Lemma sent_all_cons stmt stmts d :
  sent_all stmts (Db.sent stmt d) = sent_all (stmt :: stmts) d.
Proof. unfold sent_all, Db.sent. simpl. now rewrite <- app_assoc. Qed.

Lemma tries_le t cs : (tries t cs <= List.length cs)%nat.
Proof.
  induction cs as [|c cs IH]; simpl; [lia|].
  destruct (unused t c); lia.
Qed.

Lemma candidates_length cfg n g : List.length (fst (candidates cfg n g)) = n.
Proof.
  revert g. induction n as [|n IH]; intros g; simpl; [reflexivity|].
  destruct (generate_short_code cfg None g) as [c g1].
  specialize (IH g1). destruct (candidates cfg n g1) as [cs g2].
  simpl in *. now rewrite IH.
Qed.

Lemma with_random_generate cfg (w : Urls.World) :
  Urls.with_random (generate_short_code cfg None) w =
  (Return (fst (generate_short_code cfg None (Urls.random w))),
   {| Urls.db := Urls.db w;
      Urls.random := snd (generate_short_code cfg None (Urls.random w)) |}).
Proof.
  unfold Urls.with_random.
  now destruct (generate_short_code cfg None (Urls.random w)).
Qed.

(** The loop looks at the candidates in the order the generator gives
    them, asks the store about each, stops at the first unused one, and
    raises when [n] candidates in a row are taken. *)
Lemma generate_unique_run cfg n :
  forall w : Urls.World,
    let t := Db.urls (Urls.db w) in
    let cs := fst (candidates cfg n (Urls.random w)) in
    Urls.generate_unique cfg n w =
    (allocation_outcome (find (unused t) cs),
     {| Urls.db :=
          sent_all (map Db.SelectOneByCode (firstn (tries t cs) cs)) (Urls.db w);
        Urls.random := snd (candidates cfg (tries t cs) (Urls.random w)) |}).
Proof.
  induction n as [|n IH]; intros w; cbn zeta.
  - destruct w as [[t i ts ex] g]. cbn.
    unfold raise, sent_all. cbn. now rewrite app_nil_r.
  - cbn [Urls.generate_unique candidates].
    rewrite (bind_run_return _ _ _ _ _ (with_random_generate cfg w)).
    destruct (generate_short_code cfg None (Urls.random w)) as [c g1] eqn:Eg.
    cbn [fst snd].
    rewrite (bind_run_return _ _ _ _ _ (with_db_url_exists c _)).
    cbn [Urls.db Urls.random Urls.sent_by].
    specialize (IH (Urls.sent_by {| Urls.db := Urls.db w; Urls.random := g1 |}
                                 (Db.SelectOneByCode c))).
    cbn zeta in IH. cbn [Urls.db Urls.random Urls.sent_by Db.sent Db.urls] in IH.
    destruct (candidates cfg n g1) as [cs g2] eqn:Ec. cbn [fst] in *.
    cbn [find tries].
    change (negb (existsb (Db.has_code c) (Db.urls (Urls.db w))))
      with (unused (Db.urls (Urls.db w)) c).
    destruct (unused (Db.urls (Urls.db w)) c) eqn:Eu.
    + unfold ret. cbn [firstn map candidates allocation_outcome].
      rewrite Eg. reflexivity.
    + rewrite IH. cbn [firstn map candidates].
      rewrite Eg, sent_all_cons.
      now destruct (candidates cfg (tries (Db.urls (Urls.db w)) cs) g1).
Qed.

Lemma tries_all_taken t cs :
  find (unused t) cs = None -> tries t cs = List.length cs.
Proof.
  induction cs as [|c cs IH]; simpl; [reflexivity|].
  destruct (unused t c); [discriminate|]. intros H. now rewrite IH.
Qed.

Lemma with_db_create_url url code expires (w : Urls.World) :
  existsb (Db.has_code code) (Db.urls (Urls.db w)) = false ->
  Urls.with_db (Db.create_url url code expires) w =
  (Return (Some (inserted_row (Urls.db w) url code expires)),
   {| Urls.db := after_create (Urls.db w) url code expires;
      Urls.random := Urls.random w |}).
Proof. intros H. unfold Urls.with_db. now rewrite create_url_run. Qed.

(** The run of the create handler when it generates the code. *)
Lemma create_endpoint_generates (isoformat : datetime -> string) (cfg : Settings)
  (request : Models.Request) (url_data : Models.URLCreate) (w : Urls.World) :
  Models.custom_code url_data = None \/ Models.custom_code url_data = Some "" ->
  let t := Db.urls (Urls.db w) in
  let cs := fst (candidates cfg 10 (Urls.random w)) in
  let k := tries t cs in
  let url := normalize_url (Models.original_url url_data) in
  let expires := option_map isoformat (Models.expires_at url_data) in
  let asked := sent_all (map Db.SelectOneByCode (firstn k cs)) (Urls.db w) in
  Urls.create_short_url_endpoint isoformat cfg request url_data w =
  match find (unused t) cs with
  | Some c =>
      (Return (created_response request (Urls.db w) url c expires),
       {| Urls.db := after_create asked url c expires;
          Urls.random := snd (candidates cfg k (Urls.random w)) |})
  | None =>
      (Raise (HTTPException 500 "Failed to generate unique short code"),
       {| Urls.db := asked;
          Urls.random := snd (candidates cfg k (Urls.random w)) |})
  end.
Proof.
  intros Hcustom. cbn zeta.
  pose proof (generate_unique_run cfg 10 w) as Hloop. cbn zeta in Hloop.
  assert (Hbody :
    Urls.create_short_url_endpoint isoformat cfg request url_data w =
    bind (Urls.generate_unique cfg 10)
      (fun short_code =>
         bind (Urls.with_db
                 (Db.create_url (normalize_url (Models.original_url url_data))
                    short_code
                    (option_map isoformat (Models.expires_at url_data))))
           (fun url_record =>
              match url_record with
              | None => raise TypeError
              | Some r =>
                  ret {| Schemas.c_original_url :=
                           normalize_url (Models.original_url url_data);
                         Schemas.c_short_code := short_code;
                         Schemas.c_short_url :=
                           create_short_url (Urls.get_base_url request) short_code;
                         Schemas.c_created_at := Db.created_at r;
                         Schemas.c_expires_at := Db.expires_at r |}
              end)) w).
  { unfold Urls.create_short_url_endpoint.
    destruct Hcustom as [-> | ->]; reflexivity. }
  rewrite Hbody. clear Hbody.
  destruct (find (unused (Db.urls (Urls.db w)))
              (fst (candidates cfg 10 (Urls.random w)))) as [c|] eqn:Efind;
    cbn [allocation_outcome] in Hloop.
  - rewrite (bind_run_return _ _ _ _ _ Hloop).
    apply find_some in Efind. destruct Efind as [_ Hun].
    apply negb_true_iff in Hun.
    erewrite bind_run_return
      by (apply with_db_create_url; cbn [Urls.db sent_all Db.urls]; exact Hun).
    reflexivity.
  - now rewrite (bind_run_raise _ _ _ _ _ Hloop).
Qed.

(** C7.  With no custom code, the handler draws candidates from the
    generator one at a time, at most 10 of them, sends the store one
    existence check per candidate drawn, and creates the row under the
    first candidate no row carries.  When all 10 candidates are taken it
    raises the 500 error, and the table and its row counter stay as they
    were. *)
Theorem generated_code_is_first_unused_of_ten :
  forall (isoformat : datetime -> string) (cfg : Settings)
         (request : Models.Request) (url_data : Models.URLCreate)
         (w : Urls.World),
    Models.custom_code url_data = None ->
    let t := Db.urls (Urls.db w) in
    let cs := fst (candidates cfg 10 (Urls.random w)) in
    let k := tries t cs in
    let run := Urls.create_short_url_endpoint isoformat cfg request url_data w in
    let url := normalize_url (Models.original_url url_data) in
    let expires := option_map isoformat (Models.expires_at url_data) in
    List.length cs = 10%nat /\
    (k <= 10)%nat /\
    Urls.random (snd run) = snd (candidates cfg k (Urls.random w)) /\
    match find (unused t) cs with
    | Some c =>
        exists resp,
          fst run = Return resp /\
          Schemas.c_short_code resp = c /\
          Db.urls (Urls.db (snd run))
          = (t ++ [inserted_row (Urls.db w) url c expires])%list /\
          Db.executed (Urls.db (snd run))
          = ((Db.executed (Urls.db w) ++ map Db.SelectOneByCode (firstn k cs))
             ++ [Db.InsertUrl url c expires; Db.SelectActiveByCode c])%list
    | None =>
        k = 10%nat /\
        fst run = Raise (HTTPException 500 "Failed to generate unique short code") /\
        Db.urls (Urls.db (snd run)) = t /\
        Db.last_rowid (Urls.db (snd run)) = Db.last_rowid (Urls.db w) /\
        Db.executed (Urls.db (snd run))
        = (Db.executed (Urls.db w) ++ map Db.SelectOneByCode cs)%list
    end.
Proof.
  intros isoformat cfg request url_data w Hcustom. cbn zeta.
  pose proof (candidates_length cfg 10 (Urls.random w)) as Hlen.
  pose proof (tries_le (Db.urls (Urls.db w))
                (fst (candidates cfg 10 (Urls.random w)))) as Hle.
  rewrite Hlen in Hle.
  rewrite (create_endpoint_generates isoformat cfg request url_data w
             (or_introl Hcustom)).
  split; [exact Hlen|]. split; [exact Hle|].
  destruct (find (unused (Db.urls (Urls.db w)))
              (fst (candidates cfg 10 (Urls.random w)))) as [c|] eqn:Efind.
  - split; [reflexivity|]. eexists. split; [reflexivity|].
    cbn. repeat split; try reflexivity. now rewrite <- !app_assoc.
  - pose proof (tries_all_taken _ _ Efind) as Hk. rewrite Hlen in Hk.
    rewrite Hk. cbn [fst snd Urls.random Urls.db sent_all Db.urls Db.last_rowid
                       Db.executed].
    repeat split; try reflexivity.
    rewrite <- Hlen at 1. now rewrite firstn_all.
Qed.

Lemma generated_code_is_first_unused_of_ten_exhausted :
  let w := Sample.world [Sample.row 1 "aaaaaa" None 0 false] Sample.zeros in
  let run := Urls.create_short_url_endpoint Sample.isoformat settings
               Sample.request (Sample.body None) w in
  fst run = Raise (HTTPException 500 "Failed to generate unique short code") /\
  Db.urls (Urls.db (snd run)) = Db.urls (Urls.db w) /\
  Urls.random (snd run) = {| tape := fun _ => O; cursor := 60 |}.
Proof.
  pose proof (generated_code_is_first_unused_of_ten Sample.isoformat settings
                Sample.request (Sample.body None)
                (Sample.world [Sample.row 1 "aaaaaa" None 0 false] Sample.zeros)
                eq_refl) as H.
  cbn zeta in H. destruct H as (_ & _ & Hrandom & H).
  assert (Hnone :
    find (unused (Db.urls (Urls.db (Sample.world
                                      [Sample.row 1 "aaaaaa" None 0 false]
                                      Sample.zeros))))
         (fst (candidates settings 10 Sample.zeros)) = None) by reflexivity.
  cbn [Sample.world Urls.random] in H. rewrite Hnone in H.
  destruct H as (_ & Hraise & Hurls & _).
  cbn zeta. split; [exact Hraise|]. split; [exact Hurls|].
  rewrite Hrandom. reflexivity.
Defined.

Example second_candidate_is_taken_when_first_is_used :
  let w := Sample.world [Sample.row 1 "abcdef" None 0 true] Sample.counting in
  let run := Urls.create_short_url_endpoint Sample.isoformat settings
               Sample.request (Sample.body None) w in
  fst run
  = Return {| Schemas.c_original_url := "https://example.com/";
              Schemas.c_short_code := "ghijkl";
              Schemas.c_short_url := "http://testserver/ghijkl";
              Schemas.c_created_at := "2024-06-01 12:00:00";
              Schemas.c_expires_at := None |} /\
  Db.executed (Urls.db (snd run))
  = [Db.SelectOneByCode "abcdef"; Db.SelectOneByCode "ghijkl";
     Db.InsertUrl "https://example.com/" "ghijkl" None;
     Db.SelectActiveByCode "ghijkl"] /\
  cursor (Urls.random (snd run)) = 12%nat.
Proof. repeat split. Qed.

(* ------------------------------------------------------------------ *)
(** ** Existence check and custom codes                                *)
(* ------------------------------------------------------------------ *)

(** The run of the create handler on a custom code that passes
    validation. *)
Lemma create_endpoint_custom (isoformat : datetime -> string) (cfg : Settings)
  (request : Models.Request) (url_data : Models.URLCreate) (w : Urls.World)
  (code : string) :
  Models.custom_code url_data = Some code ->
  validate_short_code cfg code = true ->
  let url := normalize_url (Models.original_url url_data) in
  let expires := option_map isoformat (Models.expires_at url_data) in
  Urls.create_short_url_endpoint isoformat cfg request url_data w =
  if existsb (Db.has_code code) (Db.urls (Urls.db w))
  then (Raise (HTTPException 409 "Short code already exists"),
        Urls.sent_by w (Db.SelectOneByCode code))
  else (Return (created_response request (Urls.db w) url code expires),
        {| Urls.db := after_create (Db.sent (Db.SelectOneByCode code) (Urls.db w))
                        url code expires;
           Urls.random := Urls.random w |}).
Proof.
  intros Hcustom Hvalid. cbn zeta.
  assert (Hne : Str.is_empty code = false).
  { unfold validate_short_code in Hvalid. now destruct (Str.is_empty code). }
  unfold Urls.create_short_url_endpoint.
  rewrite Hcustom, Hne, Hvalid. cbn [negb].
  destruct (existsb (Db.has_code code) (Db.urls (Urls.db w))) eqn:Et.
  - apply bind_run_raise.
    rewrite (bind_run_return _ _ _ _ _ (with_db_url_exists code w)).
    now rewrite Et.
  - erewrite bind_run_return
      by (rewrite (bind_run_return _ _ _ _ _ (with_db_url_exists code w));
          rewrite Et; reflexivity).
    erewrite bind_run_return
      by (apply with_db_create_url; exact Et).
    reflexivity.
Qed.




Example soft_deleted_code_conflicts :
  fst (Urls.create_short_url_endpoint Sample.isoformat settings Sample.request
         (Sample.body (Some "gone42"))
         (Sample.world [Sample.row 1 "gone42" None 7 false] Sample.zeros))
  = Raise (HTTPException 409 "Short code already exists").
Proof. reflexivity. Qed.

(* ------------------------------------------------------------------ *)
(** ** Click counts                                                    *)
(* ------------------------------------------------------------------ *)

Lemma later_row_refl r : later_row r r.
Proof. unfold later_row. repeat split; lia. Qed.

Lemma later_row_map (f : Db.URLRow -> Db.URLRow) (t : list Db.URLRow) i r :
  (forall x, later_row x (f x)) ->
  nth_error t i = Some r ->
  exists r', nth_error (map f t) i = Some r' /\ later_row r r'.
Proof.
  intros Hf Hi. exists (f r). split; [|apply Hf].
  rewrite nth_error_map, Hi. reflexivity.
Qed.

Lemma later_row_cond (p : Db.URLRow -> bool) (f : Db.URLRow -> Db.URLRow) :
  (forall x, later_row x (f x)) ->
  forall x, later_row x (if p x then f x else x).
Proof. intros Hf x. destruct (p x); [apply Hf | apply later_row_refl]. Qed.

Lemma get_url_by_id_state (url_id : Z) (d : Db.Database) :
  snd (Db.get_url_by_id url_id d)
  = if Db.in_int64 url_id then Db.sent (Db.SelectById url_id) d else d.
Proof.
  unfold Db.get_url_by_id, Db.execute, bind, ret. cbn [Db.cursor_execute].
  now destruct (Db.in_int64 url_id).
Qed.

Lemma run_op_urls (o : Op) (d : Db.Database) :
  Db.urls (run_op o d) =
  match o with
  | OpCreateUrl url code expires =>
      if existsb (Db.has_code code) (Db.urls d) then Db.urls d
      else (Db.urls d ++ [inserted_row d url code expires])%list
  | OpUpdateUrl code url =>
      map (fun r => if Db.has_code code r then Db.set_original_url url r else r)
          (Db.urls d)
  | OpDeleteUrl code =>
      map (fun r => if Db.has_code code r then Db.set_inactive r else r)
          (Db.urls d)
  | OpIncrementClicks code => clicked code (Db.urls d)
  | _ => Db.urls d
  end.
Proof.
  destruct o as [code|url_id|url code expires|code url|code|code| |code];
    cbn [run_op].
  - now rewrite get_url_by_code_run.
  - rewrite get_url_by_id_state. now destruct (Db.in_int64 url_id).
  - destruct (existsb (Db.has_code code) (Db.urls d)) eqn:E.
    + now rewrite (create_url_taken _ _ _ _ E).
    + now rewrite (create_url_run _ _ _ _ E).
  - unfold Db.update_url, Db.execute, bind at 1 2. cbn [Db.cursor_execute].
    unfold Db.sql_update, ret at 1. now rewrite get_url_by_code_run.
  - now rewrite delete_url_run.
  - now rewrite increment_clicks_run.
  - reflexivity.
  - now rewrite url_exists_run.
Qed.

Lemma find_clicked code (t : list Db.URLRow) r :
  find (active_with_code code) t = Some r ->
  find (active_with_code code) (clicked code t) = Some (Db.add_click r).
Proof.
  induction t as [|x t IH]; simpl; [discriminate|].
  unfold active_with_code at 1 3.
  destruct (Db.has_code code x) eqn:Ec.
  - unfold Db.has_code in *.
    change (Db.short_code (Db.add_click x)) with (Db.short_code x).
    change (Db.is_active (Db.add_click x)) with (Db.is_active x).
    rewrite Ec. cbn [andb].
    destruct (Db.is_active x); [now intros [= ->] | exact IH].
  - rewrite Ec. cbn [andb]. exact IH.
Qed.

Lemma find_after_increments n code d r :
  find (active_with_code code) (Db.urls d) = Some r ->
  exists r',
    find (active_with_code code) (Db.urls (increment_times n code d)) = Some r' /\
    Db.clicks r' = Db.clicks r + Z.of_nat n /\
    Db.original_url r' = Db.original_url r /\
    Db.is_active r' = Db.is_active r /\
    Db.id r' = Db.id r.
Proof.
  intros Hfind. induction n as [|n IH].
  - exists r. cbn. repeat split; [exact Hfind | lia].
  - destruct IH as (r' & Hf & Hc & Hu & Ha & Hi).
    exists (Db.add_click r'). cbn [increment_times].
    rewrite increment_clicks_run. cbn [snd Db.with_urls Db.urls].
    split; [now apply find_clicked|].
    cbn [Db.add_click Db.clicks Db.original_url Db.is_active Db.id].
    repeat split; [lia | exact Hu | exact Ha | exact Hi].
Qed.

(** C5.  Click counts are monotone.  Whatever method runs, every row of
    the table is still there afterwards, at the same place, the same
    record, with a click count that is no smaller.  And after a row has
    been created under an unused code, [n] calls of [increment_clicks] on
    that code in a row leave it with [clicks = n]. *)
Theorem clicks_never_decrease :
  (forall (o : Op) (d : Db.Database) (i : nat) (r : Db.URLRow),
      nth_error (Db.urls d) i = Some r ->
      exists r', nth_error (Db.urls (run_op o d)) i = Some r' /\
                 Db.id r' = Db.id r /\ Db.short_code r' = Db.short_code r /\
                 Db.clicks r <= Db.clicks r') /\
  (forall (d : Db.Database) (url code : string) (expires : option string)
          (n : nat),
      fst (Db.url_exists code d) = Return false ->
      exists r0 r,
        fst (Db.create_url url code expires d) = Return (Some r0) /\
        Db.clicks r0 = 0 /\
        fst (Db.get_url_by_code code
               (increment_times n code (snd (Db.create_url url code expires d))))
        = Return (Some r) /\
        Db.clicks r = Z.of_nat n /\
        Db.id r = Db.id r0).
Proof.
  split.
  - intros o d i r Hi. change (exists r', nth_error (Db.urls (run_op o d)) i = Some r'
                                           /\ later_row r r').
    rewrite run_op_urls.
    destruct o as [code|url_id|url code expires|code url|code|code| |code];
      try (exists r; split; [exact Hi | apply later_row_refl]).
    + destruct (existsb (Db.has_code code) (Db.urls d)).
      * exists r; split; [exact Hi | apply later_row_refl].
      * exists r; split; [|apply later_row_refl].
        rewrite nth_error_app1; [exact Hi|].
        apply nth_error_Some. congruence.
    + apply later_row_map; [|exact Hi]. apply later_row_cond.
      intros x. unfold later_row. cbn. repeat split; lia.
    + apply later_row_map; [|exact Hi]. apply later_row_cond.
      intros x. unfold later_row. cbn. repeat split; lia.
    + apply later_row_map; [|exact Hi]. apply later_row_cond.
      intros x. unfold later_row. cbn. repeat split; lia.
  - intros d url code expires n Hfree.
    rewrite url_exists_run in Hfree. cbn [fst] in Hfree.
    assert (Hfresh : existsb (Db.has_code code) (Db.urls d) = false)
      by congruence.
    rewrite (create_url_run _ _ _ _ Hfresh). cbn [fst snd].
    assert (Hfind : find (active_with_code code)
                      (Db.urls (after_create d url code expires))
                    = Some (inserted_row d url code expires)).
    { cbn [after_create Db.urls].
      rewrite find_snoc, (find_fresh_code _ _ Hfresh).
      unfold active_with_code, Db.has_code. cbn.
      now rewrite String.eqb_refl. }
    destruct (find_after_increments n code _ _ Hfind)
      as (r & Hf & Hc & _ & _ & Hid).
    exists (inserted_row d url code expires), r.
    split; [reflexivity|]. split; [reflexivity|].
    rewrite get_url_by_code_run. cbn [fst]. rewrite Hf.
    split; [reflexivity|]. split; [cbn in Hc; lia | exact Hid].
Qed.

Lemma clicks_never_decrease_witness :
  (exists r',
      nth_error (Db.urls (run_op (OpDeleteUrl "abc123")
                            (Sample.database [Sample.row 1 "abc123" None 5 true])))
                0 = Some r' /\
      Db.id r' = 1 /\ Db.short_code r' = "abc123" /\ 5 <= Db.clicks r') /\
  (exists r0 r,
      fst (Db.create_url "https://example.com/" "clicks1" None (Db.init_db "now"))
      = Return (Some r0) /\
      Db.clicks r0 = 0 /\
      fst (Db.get_url_by_code "clicks1"
             (increment_times 3 "clicks1"
                (snd (Db.create_url "https://example.com/" "clicks1" None
                        (Db.init_db "now")))))
      = Return (Some r) /\
      Db.clicks r = 3 /\
      Db.id r = Db.id r0).
Proof.
  destruct clicks_never_decrease as [Hkeep Hcount]. split.
  - exact (Hkeep (OpDeleteUrl "abc123")
             (Sample.database [Sample.row 1 "abc123" None 5 true])
             O (Sample.row 1 "abc123" None 5 true) eq_refl).
  - exact (Hcount (Db.init_db "now") "https://example.com/" "clicks1" None
             3%nat eq_refl).
Defined.

(* ------------------------------------------------------------------ *)
(** ** Click increment and inactive rows                               *)
(* ------------------------------------------------------------------ *)

(** C4 as stated fails.  The statement of [increment_clicks] selects rows
    by code alone: on the code of a soft-deleted row the table does not
    stay as it was, the row's count goes from 7 to 8. *)
Lemma increment_clicks_counts_inactive_row :
  let d := Sample.database [Sample.row 1 "gone42" None 7 false] in
  (forall r, In r (Db.urls d) -> Db.short_code r = "gone42" ->
             Db.is_active r = false) /\
  Db.urls (snd (Db.increment_clicks "gone42" d))
  = [Sample.row 1 "gone42" None 8 false] /\
  Db.urls (snd (Db.increment_clicks "gone42" d)) <> Db.urls d.
Proof.
  cbn zeta. split; [|split].
  - intros r [<-|[]] _. reflexivity.
  - reflexivity.
  - discriminate.
Qed.

Lemma find_none_when_inactive code (t : list Db.URLRow) :
  (forall r, In r t -> Db.short_code r = code -> Db.is_active r = false) ->
  find (active_with_code code) t = None.
Proof.
  intros H. induction t as [|x t IH]; simpl; [reflexivity|].
  unfold active_with_code at 1.
  destruct (Db.has_code code x) eqn:Ec.
  - apply has_code_iff in Ec. rewrite (H x (or_introl eq_refl) Ec).
    cbn [andb]. apply IH. intros r Hr. apply H. now right.
  - cbn [andb]. apply IH. intros r Hr. apply H. now right.
Qed.

(** C4, as the code has it.  [increment_clicks] adds one to the count of
    every row that carries the code, active or not, and changes no other
    row.  What keeps a click from reaching an inactive row is the redirect
    handler: when every row with the code is inactive it answers 404 and
    leaves the table as it was. *)
Theorem inactive_rows_shielded_by_redirect :
  forall (cfg : Settings) (w : Urls.World) (code : string),
    (forall r, In r (Db.urls (Urls.db w)) -> Db.short_code r = code ->
               Db.is_active r = false) ->
    (fst (Urls.redirect_to_url cfg code w)
     = Raise (HTTPException 404 "Short URL not found") /\
     Db.urls (Urls.db (snd (Urls.redirect_to_url cfg code w)))
     = Db.urls (Urls.db w)) /\
    (forall i r,
        nth_error (Db.urls (Urls.db w)) i = Some r ->
        nth_error (Db.urls (snd (Db.increment_clicks code (Urls.db w)))) i
        = Some (if String.eqb (Db.short_code r) code then Db.add_click r else r)).
Proof.
  intros cfg w code Hinactive. split.
  - destruct (validate_short_code cfg code) eqn:Hvalid.
    + rewrite (redirect_run_missing _ _ _ Hvalid
                 (find_none_when_inactive _ _ Hinactive)).
      split; reflexivity.
    + unfold Urls.redirect_to_url. rewrite Hvalid. split; reflexivity.
  - intros i r Hi. rewrite increment_clicks_run.
    cbn [snd Db.with_urls Db.urls]. rewrite nth_error_map, Hi. reflexivity.
Qed.

Lemma inactive_rows_shielded_by_redirect_witness :
  let w := Sample.world [Sample.row 1 "gone42" None 7 false] Sample.zeros in
  (fst (Urls.redirect_to_url settings "gone42" w)
   = Raise (HTTPException 404 "Short URL not found") /\
   Db.urls (Urls.db (snd (Urls.redirect_to_url settings "gone42" w)))
   = Db.urls (Urls.db w)) /\
  (forall i r,
      nth_error (Db.urls (Urls.db w)) i = Some r ->
      nth_error (Db.urls (snd (Db.increment_clicks "gone42" (Urls.db w)))) i
      = Some (if String.eqb (Db.short_code r) "gone42" then Db.add_click r else r)).
Proof.
  apply (inactive_rows_shielded_by_redirect settings
           (Sample.world [Sample.row 1 "gone42" None 7 false] Sample.zeros)
           "gone42").
  intros r [<-|[]] _. reflexivity.
Defined.

(* ------------------------------------------------------------------ *)
(** ** Soft delete                                                     *)
(* ------------------------------------------------------------------ *)

Lemma find_deactivated code (t : list Db.URLRow) :
  find (active_with_code code) (deactivated code t) = None.
Proof.
  induction t as [|x t IH]; simpl; [reflexivity|].
  unfold active_with_code at 1.
  destruct (Db.has_code code x) eqn:Ec.
  - unfold Db.has_code in *.
    change (Db.short_code (Db.set_inactive x)) with (Db.short_code x).
    rewrite Ec. exact IH.
  - rewrite Ec. exact IH.
Qed.

Lemma existsb_deactivated code (t : list Db.URLRow) :
  existsb (Db.has_code code) (deactivated code t) = existsb (Db.has_code code) t.
Proof.
  induction t as [|x t IH]; simpl; [reflexivity|].
  rewrite IH. f_equal. now destruct (Db.has_code code x) eqn:Ec.
Qed.

(** After a delete, the lookup by the code finds nothing. *)
Lemma deleted_code_is_invisible code d :
  fst (Db.get_url_by_code code (snd (Db.delete_url code d))) = Return None.
Proof.
  rewrite delete_url_run, get_url_by_code_run. cbn [fst snd Db.with_urls Db.urls].
  f_equal. apply (find_deactivated code (Db.urls d)).
Qed.

(** A delete that succeeded succeeds again: the UPDATE selects the row by
    its code, and an inactive row still carries its code. *)
Lemma delete_url_succeeds_again code d :
  fst (Db.delete_url code d) = Return true ->
  fst (Db.delete_url code (snd (Db.delete_url code d))) = Return true.
Proof.
  rewrite !delete_url_run. cbn [fst snd Db.with_urls Db.urls].
  intros <-. f_equal. apply (existsb_deactivated code (Db.urls d)).
Qed.

(** C1, on the code.  A row is created under ["abc123"] and deleted: the
    handler answers with the deletion message and the lookup then finds
    nothing.  A second delete of ["abc123"] does not answer 404: it
    answers with the deletion message once more. *)
Theorem second_delete_reports_success :
  let w0 := {| Urls.db := snd (Db.create_url "https://example.com/" "abc123" None
                                 (Db.init_db "2024-06-01 12:00:00"));
               Urls.random := Sample.zeros |} in
  let w1 := snd (Urls.delete_short_url settings "abc123" w0) in
  fst (Urls.delete_short_url settings "abc123" w0)
  = Return {| Schemas.message := "URL deleted successfully";
              Schemas.d_short_code := "abc123" |} /\
  fst (Db.get_url_by_code "abc123" (Urls.db w1)) = Return None /\
  fst (Urls.delete_short_url settings "abc123" w1)
  = Return {| Schemas.message := "URL deleted successfully";
              Schemas.d_short_code := "abc123" |} /\
  fst (Db.delete_url "abc123" (Urls.db w1)) = Return true.
Proof. cbn zeta. repeat split; reflexivity. Qed.

(* ------------------------------------------------------------------ *)
(** ** Validation of a short code                                      *)
(* ------------------------------------------------------------------ *)

(** What [[a-zA-Z0-9]+$] accepts from the position it starts at: a
    non-empty run of letters and digits, alone or followed by one line
    feed that ends the string. *)
Lemma one_or_more_alnum_dollar (s : string) :
  Re.one_or_more Re.alnum (fun rest => Re.match_here [Re.Dollar] false rest) s
  = true <->
  exists p, p <> "" /\ Str.forall_chars Re.alnum p = true /\
            (s = p \/ s = p ++ newline).
Proof.
  induction s as [|c s IH].
  - split; [discriminate|].
    intros (p & Hp & _ & [H|H]); destruct p; try congruence; discriminate.
  - cbn [Re.one_or_more Re.match_here]. rewrite andb_true_r.
    rewrite andb_true_iff, orb_true_iff, IH. split.
    + intros [Hc [(p & Hp & Hall & Hs)|Hd]].
      * exists (String c p). split; [discriminate|].
        split; [cbn; now rewrite Hc|].
        destruct Hs as [->| ->]; [now left | now right].
      * exists (String c ""). split; [discriminate|].
        split; [cbn; now rewrite Hc|].
        destruct s as [|c' [|c'' s'']]; cbn in Hd; try discriminate.
        -- now left.
        -- apply Ascii.eqb_eq in Hd. subst c'. now right.
    + intros (p & Hp & Hall & Hs).
      destruct p as [|c0 p0]; [congruence|].
      cbn in Hall. apply andb_true_iff in Hall. destruct Hall as [Hc0 Hall].
      assert (Hcs : c = c0 /\ (s = p0 \/ s = p0 ++ newline)).
      { destruct Hs as [Hs|Hs]; cbn in Hs; inversion Hs; subst; auto. }
      clear Hs. destruct Hcs as [-> Hs]. split; [exact Hc0|].
      destruct p0 as [|c1 p1].
      * right. destruct Hs as [->| ->]; reflexivity.
      * left. exists (String c1 p1). split; [discriminate|]. split; assumption.
Qed.

(** What [validate_short_code] accepts: the length is within the bounds,
    and the code is letters and digits, possibly with one line feed after
    them. *)
Lemma validate_short_code_accepts (cfg : Settings) (code : string) :
  validate_short_code cfg code = true <->
  min_short_code_length cfg <= Str.len code <= max_short_code_length cfg /\
  exists p, p <> "" /\ Str.forall_chars Re.alnum p = true /\
            (code = p \/ code = p ++ newline).
Proof.
  unfold validate_short_code, Re.re_match, short_code_pattern.
  cbn [Re.match_here andb]. rewrite <- one_or_more_alnum_dollar.
  destruct code as [|c s].
  - cbn [Str.is_empty]. split; [discriminate|]. intros [_ H]. exact H.
  - cbn [Str.is_empty].
    destruct (Str.len (String c s) <? min_short_code_length cfg) eqn:Elo;
      destruct (Str.len (String c s) >? max_short_code_length cfg) eqn:Ehi;
      cbn [orb];
      try apply Z.ltb_lt in Elo; try apply Z.ltb_ge in Elo;
      try (apply Z.gtb_lt in Ehi); try (rewrite Z.gtb_ltb in Ehi; apply Z.ltb_ge in Ehi);
      try (split; [discriminate | intros [Hb _]; lia]).
    change (Re.one_or_more Re.alnum
              (fun rest => Re.match_here [Re.Dollar] false rest) (String c s))
      with (Re.one_or_more Re.alnum
              (fun rest => Re.at_dollar rest && true) (String c s)).
    destruct (Re.one_or_more Re.alnum
                (fun rest => Re.at_dollar rest && true) (String c s));
      cbn [negb]; split; try discriminate; try (intros [_ H]; exact H).
    intros _. split; [lia | reflexivity].
Qed.

(** C6, on the code.  The code ["abc"] followed by a line feed has four
    characters, the last of which is neither a letter nor a digit, and
    [validate_short_code] accepts it under the default settings: the [$]
    of the pattern also matches before a final line feed. *)
Theorem validate_accepts_trailing_newline :
  validate_short_code settings ("abc" ++ newline) = true /\
  Str.len ("abc" ++ newline) = 4 /\
  Str.forall_chars Re.alnum ("abc" ++ newline) = false /\
  Re.alnum Str.LF = false.
Proof. repeat split; reflexivity. Qed.

(** Through the handlers the flaw is visible: a row can be created under
    such a code. *)
Example newline_code_is_created :
  match fst (Urls.create_short_url_endpoint Sample.isoformat settings
               Sample.request (Sample.body (Some ("abc" ++ newline)))
               (Sample.world [] Sample.zeros)) with
  | Return resp => Schemas.c_short_code resp = "abc" ++ newline
  | Raise _ => False
  end.
Proof. vm_compute. reflexivity. Qed.

(* ------------------------------------------------------------------ *)
(** ** A custom code that fails validation                             *)
(* ------------------------------------------------------------------ *)

(** A non-empty custom code that fails validation is answered with the
    400 before the store is asked anything. *)
Lemma invalid_custom_code_rejected (isoformat : datetime -> string)
  (cfg : Settings) (request : Models.Request) (url_data : Models.URLCreate)
  (w : Urls.World) (code : string) :
  Models.custom_code url_data = Some code ->
  code <> "" ->
  validate_short_code cfg code = false ->
  Urls.create_short_url_endpoint isoformat cfg request url_data w
  = (Raise (HTTPException 400 "Custom code must be 3-20 alphanumeric characters"),
     w).
Proof.
  intros Hcustom Hne Hbad. unfold Urls.create_short_url_endpoint.
  rewrite Hcustom, Hbad.
  destruct code as [|c s]; [congruence|]. reflexivity.
Qed.

(* ------------------------------------------------------------------ *)
(** ** The end-to-end scenario                                         *)
(* ------------------------------------------------------------------ *)

(** Create without a custom code, redirect three times, delete: the code
    has six characters, the redirects answer 302, the count goes from 0 to
    3, and the deleted code is no longer found. *)
Example end_to_end_scenario :
  let w0 := {| Urls.db := Db.init_db "2024-06-01 12:00:00";
               Urls.random := Sample.counting |} in
  let w1 := snd (Urls.create_short_url_endpoint Sample.isoformat settings
                   Sample.request (Sample.body None) w0) in
  let w2 := snd (Urls.redirect_to_url settings "abcdef" w1) in
  let w3 := snd (Urls.redirect_to_url settings "abcdef" w2) in
  let w4 := snd (Urls.redirect_to_url settings "abcdef" w3) in
  let w5 := snd (Urls.delete_short_url settings "abcdef" w4) in
  Db.urls (Urls.db w1)
  = [{| Db.id := 1; Db.original_url := "https://example.com/";
        Db.short_code := "abcdef"; Db.created_at := "2024-06-01 12:00:00";
        Db.expires_at := None; Db.clicks := 0; Db.is_active := true |}] /\
  fst (Urls.redirect_to_url settings "abcdef" w3)
  = Return {| Schemas.url := "https://example.com/"; Schemas.status_code := 302 |} /\
  option_map Db.clicks (nth_error (Db.urls (Urls.db w4)) 0) = Some 3 /\
  fst (Db.get_url_by_code "abcdef" (Urls.db w5)) = Return None /\
  fst (Urls.redirect_to_url settings "abcdef" w5)
  = Raise (HTTPException 404 "Short URL not found").
Proof. cbn zeta. repeat split; reflexivity. Qed.

(* ------------------------------------------------------------------ *)
(** ** Invariants of the reachable stores                              *)
(* ------------------------------------------------------------------ *)

Lemma codes_map_cond (p : Db.URLRow -> bool) (f : Db.URLRow -> Db.URLRow)
  (t : list Db.URLRow) :
  (forall r, Db.short_code (f r) = Db.short_code r) ->
  codes (map (fun r => if p r then f r else r) t) = codes t.
Proof.
  intros Hf. unfold codes. rewrite map_map. apply map_ext.
  intros r. destruct (p r); [apply Hf | reflexivity].
Qed.

Lemma codes_clicked code t : codes (clicked code t) = codes t.
Proof. now apply codes_map_cond. Qed.

Lemma codes_deactivated code t : codes (deactivated code t) = codes t.
Proof. now apply codes_map_cond. Qed.

Lemma not_taken_not_in code (t : list Db.URLRow) :
  existsb (Db.has_code code) t = false -> ~ In code (codes t).
Proof.
  intros H Hin. apply in_map_iff in Hin. destruct Hin as (r & Hr & Hin).
  assert (existsb (Db.has_code code) t = true); [|congruence].
  apply code_taken_iff. now exists r.
Qed.

(** The UNIQUE constraint does its work: no method of [Database] makes two
    rows share a code. *)
Lemma unique_codes_preserved (o : Op) (d : Db.Database) :
  NoDup (codes (Db.urls d)) -> NoDup (codes (Db.urls (run_op o d))).
Proof.
  intros Hnd. rewrite run_op_urls.
  destruct o as [code|url_id|url code expires|code url|code|code| |code];
    try assumption.
  - destruct (existsb (Db.has_code code) (Db.urls d)) eqn:E; [assumption|].
    unfold codes. rewrite map_app. cbn [map inserted_row Db.short_code].
    apply NoDup_app; [assumption | repeat constructor; intros [] |].
    intros x Hx [<-|[]]. now apply (not_taken_not_in _ _ E).
  - now rewrite codes_map_cond.
  - now rewrite codes_map_cond.
  - now rewrite codes_clicked.
Qed.

Lemma forall_chars_of_list (p : ascii -> bool) (cs : list ascii) :
  Str.forall_chars p (string_of_list_ascii cs) = forallb p cs.
Proof. induction cs as [|c cs IH]; cbn; [reflexivity | now rewrite IH]. Qed.

Lemma length_of_list (cs : list ascii) :
  String.length (string_of_list_ascii cs) = List.length cs.
Proof. induction cs as [|c cs IH]; cbn; [reflexivity | now rewrite IH]. Qed.

Lemma choices_from_population (pop : list ascii) (k : nat) :
  pop <> [] ->
  forall g, List.length (fst (choices pop k g)) = k /\
            Forall (fun c => In c pop) (fst (choices pop k g)).
Proof.
  intros Hpop. induction k as [|k IH]; intros g; cbn [choices].
  - split; [reflexivity | constructor].
  - unfold randbelow.
    destruct (IH {| tape := tape g; cursor := S (cursor g) |}) as [Hlen Hall].
    destruct (choices pop k {| tape := tape g; cursor := S (cursor g) |})
      as [rest g2]. cbn [fst] in *.
    split; [cbn; now rewrite Hlen|].
    constructor; [|exact Hall].
    apply nth_In. apply Nat.mod_upper_bound.
    destruct pop; [congruence | discriminate].
Qed.

(** Under settings that agree with each other a generated code is valid. *)
Lemma generated_code_valid (cfg : Settings) (g : RandomState) :
  settings_ok cfg ->
  validate_short_code cfg (fst (generate_short_code cfg None g)) = true.
Proof.
  intros [Hpos Hbounds]. unfold generate_short_code.
  destruct (choices_from_population (list_ascii_of_string ALPHABET)
              (Z.to_nat (default_short_code_length cfg))
              ltac:(discriminate) g) as [Hlen Hall].
  destruct (choices (list_ascii_of_string ALPHABET)
              (Z.to_nat (default_short_code_length cfg)) g) as [cs g'].
  cbn [fst] in *. apply validate_short_code_accepts. split.
  - unfold Str.len. rewrite length_of_list, Hlen. lia.
  - exists (string_of_list_ascii cs). split; [|split; [|now left]].
    + destruct cs as [|c cs]; [cbn in Hlen; lia | discriminate].
    + rewrite forall_chars_of_list. apply forallb_forall.
      intros c Hc. rewrite Forall_forall in Hall. specialize (Hall c Hc).
      assert (Halpha : forallb Re.alnum (list_ascii_of_string ALPHABET) = true)
        by reflexivity.
      rewrite forallb_forall in Halpha. now apply Halpha.
Qed.

Lemma candidates_valid (cfg : Settings) (n : nat) :
  settings_ok cfg ->
  forall g c, In c (fst (candidates cfg n g)) -> validate_short_code cfg c = true.
Proof.
  intros Hok. induction n as [|n IH]; intros g c; cbn [candidates].
  - intros [].
  - pose proof (generated_code_valid cfg g Hok) as Hgen.
    destruct (generate_short_code cfg None g) as [c0 g1].
    specialize (IH g1 c). destruct (candidates cfg n g1) as [cs g2].
    cbn [fst] in *. intros [<-|Hin]; [exact Hgen | now apply IH].
Qed.

(** A request leaves the codes of the table as they were, or adds one
    code that passes validation and that no row carried. *)
Lemma handle_codes (isoformat : datetime -> string) (cfg : Settings)
  (c : Call) (w : Urls.World) :
  settings_ok cfg ->
  codes (Db.urls (Urls.db (handle isoformat cfg c w))) = codes (Db.urls (Urls.db w)) \/
  exists code,
    codes (Db.urls (Urls.db (handle isoformat cfg c w)))
    = (codes (Db.urls (Urls.db w)) ++ [code])%list /\
    validate_short_code cfg code = true /\
    ~ In code (codes (Db.urls (Urls.db w))).
Proof.
  intros Hok.
  destruct c as [request url_data|code|code|code request url_data|code request];
    cbn [handle].
  - assert (Hgen :
      Models.custom_code url_data = None \/ Models.custom_code url_data = Some "" ->
      codes (Db.urls (Urls.db (snd (Urls.create_short_url_endpoint
                                      isoformat cfg request url_data w))))
      = codes (Db.urls (Urls.db w)) \/
      exists code,
        codes (Db.urls (Urls.db (snd (Urls.create_short_url_endpoint
                                        isoformat cfg request url_data w))))
        = (codes (Db.urls (Urls.db w)) ++ [code])%list /\
        validate_short_code cfg code = true /\
        ~ In code (codes (Db.urls (Urls.db w)))).
    { intros Hcustom.
      rewrite (create_endpoint_generates isoformat cfg request url_data w Hcustom).
      destruct (find (unused (Db.urls (Urls.db w)))
                  (fst (candidates cfg 10 (Urls.random w)))) as [c|] eqn:Efind.
      - right. exists c. apply find_some in Efind. destruct Efind as [Hin Hun].
        apply negb_true_iff in Hun.
        split; [|split].
        + cbn. unfold codes. now rewrite map_app.
        + now apply (candidates_valid cfg 10 Hok (Urls.random w)).
        + now apply not_taken_not_in.
      - now left. }
    destruct (Models.custom_code url_data) as [code|] eqn:Hcustom;
      [|now apply Hgen; left].
    destruct code as [|ch rest]; [now apply Hgen; right|].
    destruct (validate_short_code cfg (String ch rest)) eqn:Hvalid.
    + rewrite (create_endpoint_custom isoformat _ request _ w _ Hcustom Hvalid).
      destruct (existsb (Db.has_code (String ch rest)) (Db.urls (Urls.db w)))
        eqn:Et; [now left|].
      right. exists (String ch rest). split; [|split].
      * cbn. unfold codes. now rewrite map_app.
      * exact Hvalid.
      * now apply not_taken_not_in.
    + rewrite (invalid_custom_code_rejected isoformat _ request _ w _ Hcustom
                 ltac:(discriminate) Hvalid).
      now left.
  - left. destruct (validate_short_code cfg code) eqn:Hvalid.
    + destruct (find (active_with_code code) (Db.urls (Urls.db w))) as [r|] eqn:Ef.
      * rewrite (redirect_run_found _ _ _ _ Hvalid Ef). cbn.
        apply codes_clicked.
      * now rewrite (redirect_run_missing _ _ _ Hvalid Ef).
    + unfold Urls.redirect_to_url. now rewrite Hvalid.
  - left. unfold Urls.delete_short_url.
    destruct (validate_short_code cfg code); cbn [negb]; [|reflexivity].
    unfold bind. rewrite with_db_run, delete_url_run. cbn [fst snd].
    destruct (existsb (Db.has_code code) (Db.urls (Urls.db w)));
      cbn; apply codes_deactivated.
  - left. unfold Urls.update_short_url.
    destruct (validate_short_code cfg code); cbn [negb]; [|reflexivity].
    rewrite (bind_run_return _ _ _ _ _ (with_db_get_url_by_code code w)).
    destruct (find (active_with_code code) (Db.urls (Urls.db w))); [|reflexivity].
    unfold bind. rewrite with_db_run.
    pose proof (run_op_urls
                  (OpUpdateUrl code (normalize_url (Models.original_url url_data)))
                  (Urls.db (Urls.sent_by w (Db.SelectActiveByCode code)))) as Hup.
    cbn [run_op] in Hup.
    destruct (Db.update_url code (normalize_url (Models.original_url url_data))
                (Urls.db (Urls.sent_by w (Db.SelectActiveByCode code))))
      as [[[r|]|e] d']; cbn [fst snd] in *; unfold ret, raise; cbn [snd Urls.db];
      rewrite Hup; cbn; now apply codes_map_cond.
  - left. unfold Urls.get_url_info.
    destruct (validate_short_code cfg code); cbn [negb]; [|reflexivity].
    rewrite (bind_run_return _ _ _ _ _ (with_db_get_url_by_code code w)).
    now destruct (find (active_with_code code) (Db.urls (Urls.db w))).
Qed.

(** Whatever requests the service has served, the codes of its table are
    pairwise different and each passes validation.  So the hypotheses on
    the table and on the code under which the statements above are made
    hold of every store the handlers build. *)
Lemma reachable_store_invariant (isoformat : datetime -> string)
  (cfg : Settings) (w : Urls.World) :
  settings_ok cfg ->
  reachable isoformat cfg w ->
  NoDup (codes (Db.urls (Urls.db w))) /\
  Forall (fun code => validate_short_code cfg code = true)
         (codes (Db.urls (Urls.db w))).
Proof.
  intros Hok Hreach. induction Hreach as [ts g|c w Hreach [Hnd Hall]|ts w Hreach IH].
  - split; constructor.
  - destruct (handle_codes isoformat cfg c w Hok) as [->|(code & -> & Hvalid & Hnew)].
    + now split.
    + split.
      * apply NoDup_app; [assumption | repeat constructor; intros [] |].
        intros x Hx [<-|[]]. contradiction.
      * apply Forall_app. split; [assumption | now repeat constructor].
  - exact IH.
Qed.

Lemma default_settings_ok : settings_ok settings.
Proof. unfold settings_ok, settings. cbn. lia. Qed.

(* ================================================================== *)
(** * Further properties of the code                                    *)
(* ================================================================== *)

(* ------------------------------------------------------------------ *)
(** ** Stripping, splitting and joining                                *)
(* ------------------------------------------------------------------ *)

Section Stripping.
Variable p : ascii -> bool.

Lemma rstrip_by_snoc (s : string) (c : ascii) :
  p c = true -> Str.rstrip_by p (s ++ String c "") = Str.rstrip_by p s.
Proof.
  intros Hc. induction s as [|a s IH]; cbn.
  - now rewrite Hc.
  - now rewrite IH.
Qed.

Lemma rstrip_by_idem (s : string) :
  Str.rstrip_by p (Str.rstrip_by p s) = Str.rstrip_by p s.
Proof.
  induction s as [|c s IH]; cbn; [reflexivity|].
  destruct (p c && Str.is_empty (Str.rstrip_by p s)) eqn:E; [reflexivity|].
  cbn. now rewrite IH, E.
Qed.

Lemma rstrip_by_app_fixed (a b : string) :
  b <> "" -> Str.rstrip_by p b = b -> Str.rstrip_by p (a ++ b) = a ++ b.
Proof.
  intros Hb Hfix. induction a as [|c a IH]; cbn; [exact Hfix|].
  rewrite IH. destruct (a ++ b) as [|x y] eqn:E.
  - destruct a; cbn in E; [congruence | discriminate].
  - cbn. now rewrite andb_false_r.
Qed.

Lemma rstrip_by_none (s : string) :
  Str.forall_chars (fun c => negb (p c)) s = true -> Str.rstrip_by p s = s.
Proof.
  induction s as [|c s IH]; cbn; [reflexivity|].
  intros H. apply andb_true_iff in H. destruct H as [Hc Hs].
  rewrite (IH Hs). apply negb_true_iff in Hc. now rewrite Hc.
Qed.

Lemma lstrip_by_length (s : string) :
  (String.length (Str.lstrip_by p s) <= String.length s)%nat.
Proof.
  induction s as [|c s IH]; cbn; [lia|].
  destruct (p c); cbn; lia.
Qed.

Lemma lstrip_by_idem (s : string) :
  Str.lstrip_by p (Str.lstrip_by p s) = Str.lstrip_by p s.
Proof.
  induction s as [|c s IH]; cbn; [reflexivity|].
  destruct (p c) eqn:E; [exact IH|]. cbn. now rewrite E.
Qed.

Lemma lstrip_by_rstrip_fixed (u : string) :
  Str.lstrip_by p u = u -> Str.lstrip_by p (Str.rstrip_by p u) = Str.rstrip_by p u.
Proof.
  destruct u as [|c u]; cbn; [reflexivity|].
  destruct (p c) eqn:E.
  - intros H. pose proof (lstrip_by_length u) as Hlen.
    rewrite H in Hlen. cbn in Hlen. lia.
  - intros _. cbn. now rewrite E.
Qed.
End Stripping.

Lemma strip_idem (s : string) : Str.strip (Str.strip s) = Str.strip s.
Proof.
  unfold Str.strip.
  rewrite (lstrip_by_rstrip_fixed _ _ (lstrip_by_idem _ s)).
  apply rstrip_by_idem.
Qed.

Lemma split_char_nonempty (sep : ascii) (s : string) : Str.split_char sep s <> [].
Proof.
  destruct s as [|c s]; cbn; [discriminate|].
  destruct (Ascii.eqb c sep); [discriminate|].
  destruct (Str.split_char sep s); discriminate.
Qed.

Lemma split_char_app (sep : ascii) (a b : string) :
  Str.split_char sep (a ++ String sep b)
  = (Str.split_char sep a ++ Str.split_char sep b)%list.
Proof.
  induction a as [|c a IH]; cbn.
  - now rewrite Ascii.eqb_refl.
  - rewrite IH. destruct (Ascii.eqb c sep); [reflexivity|].
    pose proof (split_char_nonempty sep a) as Hne.
    destruct (Str.split_char sep a); [congruence | reflexivity].
Qed.

Lemma split_char_free (sep : ascii) (s : string) :
  free_of sep s = true -> Str.split_char sep s = [s].
Proof.
  unfold free_of. induction s as [|c s IH]; cbn; [reflexivity|].
  intros H. apply andb_true_iff in H. destruct H as [Hc Hs].
  apply negb_true_iff in Hc. now rewrite Hc, (IH Hs).
Qed.

(** Joining the pieces of a split gives the string back. *)
Lemma join_split_char (sep : ascii) (s : string) :
  Str.join (String sep "") (Str.split_char sep s) = s.
Proof.
  unfold Str.join. induction s as [|c s IH]; cbn; [reflexivity|].
  pose proof (split_char_nonempty sep s) as Hne.
  destruct (Ascii.eqb c sep) eqn:E.
  - apply Ascii.eqb_eq in E. subst c.
    destruct (Str.split_char sep s) as [|x xs]; [congruence|].
    cbn in *. now rewrite IH.
  - destruct (Str.split_char sep s) as [|x xs]; [congruence|].
    destruct xs as [|y ys]; cbn in *; now rewrite <- IH.
Qed.

Lemma forall_chars_ext (p q : ascii -> bool) (s : string) :
  (forall c, p c = q c) -> Str.forall_chars p s = Str.forall_chars q s.
Proof.
  intros H. induction s as [|c s IH]; cbn; [reflexivity | now rewrite H, IH].
Qed.

Lemma prefix_app (a b : string) : String.prefix a (a ++ b) = true.
Proof.
  induction a as [|c a IH]; cbn; [now destruct b|].
  destruct (ascii_dec c c); [exact IH | congruence].
Qed.

(* ------------------------------------------------------------------ *)
(** ** [normalize_url], [create_short_url], [extract_original_url]     *)
(* ------------------------------------------------------------------ *)

(** X1.  [normalize_url] is idempotent, and what it returns begins with
    ["http://"] or ["https://"] and has no white space at either end. *)
Theorem normalize_url_idempotent :
  forall url : string,
    normalize_url (normalize_url url) = normalize_url url /\
    (Str.startswith (normalize_url url) "http://" = true \/
     Str.startswith (normalize_url url) "https://" = true) /\
    Str.strip (normalize_url url) = normalize_url url.
Proof.
  intros url.
  assert (Hfixed : Str.strip (normalize_url url) = normalize_url url).
  { unfold normalize_url. cbn zeta.
    destruct (Str.startswith (Str.strip url) "http://"
              || Str.startswith (Str.strip url) "https://"); cbn [negb].
    - apply strip_idem.
    - unfold Str.strip at 1.
      change (Str.lstrip_by Str.isspace ("https://" ++ Str.strip url))
        with ("https://" ++ Str.strip url).
      destruct (Str.strip url) as [|c u] eqn:E; [reflexivity|].
      apply rstrip_by_app_fixed; [discriminate|].
      rewrite <- E. unfold Str.strip. apply rstrip_by_idem. }
  assert (Hscheme : Str.startswith (normalize_url url) "http://" = true \/
                    Str.startswith (normalize_url url) "https://" = true).
  { unfold normalize_url. cbn zeta.
    destruct (Str.startswith (Str.strip url) "http://") eqn:E1; cbn [orb negb];
      [now left|].
    destruct (Str.startswith (Str.strip url) "https://") eqn:E2; cbn [negb];
      [now right|].
    right. apply prefix_app. }
  split; [|split; assumption].
  unfold normalize_url at 1. cbn zeta. rewrite Hfixed.
  destruct Hscheme as [-> | ->]; cbn [orb negb]; [reflexivity|].
  now rewrite orb_true_r.
Qed.

(** X2.  [create_short_url] does not see the slashes at the end of the
    base URL: adding one changes nothing; the result is the base without
    its trailing slashes, one slash, and the code. *)
Theorem create_short_url_ignores_trailing_slash :
  forall base_url short_code : string,
    create_short_url (base_url ++ "/") short_code
    = create_short_url base_url short_code /\
    create_short_url (Str.rstrip_char "/" base_url) short_code
    = create_short_url base_url short_code /\
    Str.startswith (create_short_url base_url short_code)
      (Str.rstrip_char "/" base_url ++ "/") = true.
Proof.
  intros base_url short_code. unfold create_short_url, Str.rstrip_char.
  split; [|split].
  - now rewrite (rstrip_by_snoc (Ascii.eqb "/") base_url "/" eq_refl).
  - now rewrite rstrip_by_idem.
  - unfold Str.startswith.
    set (b := Str.rstrip_by (Ascii.eqb "/") base_url).
    replace (b ++ "/" ++ short_code) with ((b ++ "/") ++ short_code).
    + apply prefix_app.
    + clear. induction b as [|c b IH]; cbn; [reflexivity | now rewrite IH].
Qed.

(** X3.  [extract_original_url] undoes [create_short_url]: from the full
    short URL of a non-empty code without a slash it returns the base URL,
    trailing slashes removed. *)
Theorem extract_undoes_create_short_url :
  forall base_url short_code : string,
    short_code <> "" ->
    free_of "/" short_code = true ->
    extract_original_url (create_short_url base_url short_code)
    = Str.rstrip_char "/" base_url.
Proof.
  intros base_url short_code Hne Hfree.
  unfold extract_original_url, create_short_url, Str.rstrip_char.
  set (b := Str.rstrip_by (Ascii.eqb "/") base_url).
  assert (Hcode : Str.rstrip_by (Ascii.eqb "/") short_code = short_code).
  { apply rstrip_by_none.
    rewrite (forall_chars_ext _ (fun c => negb (Ascii.eqb c "/")));
      [exact Hfree | intros c; now rewrite Ascii.eqb_sym]. }
  assert (Hfull : Str.rstrip_by (Ascii.eqb "/") (b ++ "/" ++ short_code)
                  = b ++ "/" ++ short_code).
  { apply rstrip_by_app_fixed.
    - discriminate.
    - change ("/" ++ short_code) with ("/" ++ short_code).
      apply (rstrip_by_app_fixed _ "/" short_code Hne Hcode). }
  rewrite Hfull.
  change (b ++ "/" ++ short_code) with (b ++ String "/" short_code).
  rewrite split_char_app, (split_char_free _ _ Hfree).
  pose proof (split_char_nonempty "/" b) as Hparts.
  destruct (Str.split_char "/" b ++ [short_code])%list as [|x xs] eqn:E.
  - destruct (Str.split_char "/" b); discriminate.
  - rewrite <- E, removelast_last. apply (join_split_char "/").
Qed.

Lemma extract_undoes_create_short_url_witness :
  extract_original_url (create_short_url "http://testserver/" "abc123")
  = "http://testserver".
Proof.
  exact (extract_undoes_create_short_url "http://testserver/" "abc123"
           ltac:(discriminate) eq_refl).
Defined.

(* ------------------------------------------------------------------ *)
(** ** [generate_short_code] and [validate_short_code]                 *)
(* ------------------------------------------------------------------ *)

Lemma choices_cursor (pop : list ascii) (k : nat) :
  forall g, cursor (snd (choices pop k g)) = (cursor g + k)%nat /\
            tape (snd (choices pop k g)) = tape g.
Proof.
  induction k as [|k IH]; intros g; cbn [choices].
  - cbn. split; [lia | reflexivity].
  - unfold randbelow.
    destruct (IH {| tape := tape g; cursor := S (cursor g) |}) as [Hc Ht].
    destruct (choices pop k {| tape := tape g; cursor := S (cursor g) |})
      as [rest g2]. cbn in *. split; [lia | exact Ht].
Qed.

Lemma generate_short_code_shape_aux (cfg : Settings) (length : option Z)
  (g : RandomState) :
  String.length (fst (generate_short_code cfg length g))
  = Z.to_nat (effective_length cfg length) /\
  Str.forall_chars Re.alnum (fst (generate_short_code cfg length g)) = true.
Proof.
  unfold generate_short_code.
  change (match length with
          | Some l => if l =? 0 then default_short_code_length cfg else l
          | None => default_short_code_length cfg
          end) with (effective_length cfg length).
  set (n := Z.to_nat (effective_length cfg length)).
  destruct (choices_from_population (list_ascii_of_string ALPHABET) n
              ltac:(discriminate) g) as [Hlen Hall].
  destruct (choices (list_ascii_of_string ALPHABET) n g) as [cs g'].
  cbn [fst] in *. rewrite length_of_list, forall_chars_of_list.
  split; [assumption|].
  apply forallb_forall. intros c Hc.
  rewrite Forall_forall in Hall. specialize (Hall c Hc).
  assert (Halpha : forallb Re.alnum (list_ascii_of_string ALPHABET) = true)
    by reflexivity.
  rewrite forallb_forall in Halpha. now apply Halpha.
Qed.

(** X4.  A generated code has exactly the length asked for (the
    configured default when none or 0 is asked for, no character when the
    length is negative), every character of it is a letter or a digit, and
    the generator has moved on by one draw per character. *)
Theorem generate_short_code_shape :
  forall (cfg : Settings) (length : option Z) (g : RandomState),
    let n := Z.to_nat (effective_length cfg length) in
    String.length (fst (generate_short_code cfg length g)) = n /\
    Str.forall_chars Re.alnum (fst (generate_short_code cfg length g)) = true /\
    cursor (snd (generate_short_code cfg length g)) = (cursor g + n)%nat /\
    tape (snd (generate_short_code cfg length g)) = tape g.
Proof.
  intros cfg length g. cbn zeta.
  destruct (generate_short_code_shape_aux cfg length g) as [Hlen Hall].
  split; [exact Hlen|]. split; [exact Hall|].
  unfold generate_short_code.
  change (match length with
          | Some l => if l =? 0 then default_short_code_length cfg else l
          | None => default_short_code_length cfg
          end) with (effective_length cfg length).
  destruct (choices_cursor (list_ascii_of_string ALPHABET)
              (Z.to_nat (effective_length cfg length)) g) as [Hcur Htape].
  destruct (choices (list_ascii_of_string ALPHABET)
              (Z.to_nat (effective_length cfg length)) g) as [cs g'].
  cbn [snd] in *. now split.
Qed.

(** X5.  Generator and validator agree: a code generated with a length
    between the configured minimum and maximum, at least 1, passes
    [validate_short_code]. *)
Theorem generated_code_passes_validation :
  forall (cfg : Settings) (length : option Z) (g : RandomState),
    1 <= effective_length cfg length ->
    min_short_code_length cfg <= effective_length cfg length
    <= max_short_code_length cfg ->
    validate_short_code cfg (fst (generate_short_code cfg length g)) = true.
Proof.
  intros cfg length g Hpos Hbounds.
  destruct (generate_short_code_shape_aux cfg length g) as (Hlen & Hall).
  apply validate_short_code_accepts. split.
  - unfold Str.len. rewrite Hlen. lia.
  - exists (fst (generate_short_code cfg length g)).
    split; [|split; [exact Hall | now left]].
    intros E. rewrite E in Hlen. cbn in Hlen. lia.
Qed.

Lemma generated_code_passes_validation_witness :
  validate_short_code settings (fst (generate_short_code settings (Some 8)
                                       Sample.counting)) = true.
Proof.
  apply (generated_code_passes_validation settings (Some 8) Sample.counting);
    cbn; lia.
Defined.

(** X6.  On a code that does not end in a line feed,
    [validate_short_code] answers true exactly when the code is not empty,
    its length is within the configured bounds, and every character is a
    letter or a digit. *)
Theorem validate_short_code_exact_without_final_newline :
  forall (cfg : Settings) (code : string),
    (forall p, code <> p ++ newline) ->
    (validate_short_code cfg code = true <->
     code <> "" /\
     min_short_code_length cfg <= Str.len code <= max_short_code_length cfg /\
     Str.forall_chars Re.alnum code = true).
Proof.
  intros cfg code Hnl. rewrite validate_short_code_accepts. split.
  - intros [Hb (p & Hp & Hall & [->|Heq])].
    + now repeat split.
    + now apply Hnl in Heq.
  - intros (Hne & Hb & Hall). split; [exact Hb|].
    exists code. now repeat split; try left.
Qed.

Lemma validate_short_code_exact_without_final_newline_witness :
  validate_short_code settings "Abc123" = true <->
  "Abc123" <> "" /\
  min_short_code_length settings <= Str.len "Abc123"
  <= max_short_code_length settings /\
  Str.forall_chars Re.alnum "Abc123" = true.
Proof.
  apply (validate_short_code_exact_without_final_newline settings "Abc123").
  intros p Hp.
  destruct p as [|a [|b [|c [|d [|e [|f [|x y]]]]]]]; cbn in Hp; try discriminate.
Defined.

(* ------------------------------------------------------------------ *)
(** ** [is_url_expired]                                                *)
(* ------------------------------------------------------------------ *)

Lemma string_app_assoc (a b c : string) : a ++ b ++ c = (a ++ b) ++ c.
Proof. induction a as [|x a IH]; cbn; [reflexivity | now rewrite IH]. Qed.

Lemma replace_char_app (old : ascii) (new a b : string) :
  Str.replace_char old new (a ++ b)
  = Str.replace_char old new a ++ Str.replace_char old new b.
Proof.
  induction a as [|c a IH]; cbn [Str.replace_char append]; [reflexivity|].
  destruct (Ascii.eqb c old); rewrite IH; [|reflexivity].
  apply string_app_assoc.
Qed.

Lemma replace_char_free (old : ascii) (new s : string) :
  free_of old s = true -> Str.replace_char old new s = s.
Proof.
  unfold free_of. induction s as [|c s IH]; cbn; [reflexivity|].
  intros H. apply andb_true_iff in H. destruct H as [Hc Hs].
  apply negb_true_iff in Hc. now rewrite Hc, (IH Hs).
Qed.

Lemma is_url_expired_parsed (fromisoformat : string -> option datetime)
  (clk : Clock) (s : string) (d : datetime) :
  s <> "" ->
  fromisoformat (Str.replace_char "Z" "+00:00" s) = Some d ->
  is_url_expired fromisoformat clk (Some s) = Return (utc_now clk >? instant clk d).
Proof.
  intros Hs Hd. unfold is_url_expired.
  destruct s as [|c s']; [congruence|]. cbn [Str.is_empty].
  unfold is_url_expired_try, parse_expire_time. rewrite Hd.
  destruct d as [wl [off|]]; unfold gt, now, instant; cbn [tzinfo wall]; f_equal.
  - f_equal; lia.
  - rewrite !Z.gtb_ltb. apply eq_true_iff_eq. rewrite !Z.ltb_lt. lia.
Qed.

Lemma is_url_expired_unparsed (fromisoformat : string -> option datetime)
  (clk : Clock) (s : string) :
  fromisoformat (Str.replace_char "Z" "+00:00" s) = None ->
  is_url_expired fromisoformat clk (Some s) = Return false.
Proof.
  intros Hd. unfold is_url_expired.
  destruct (Str.is_empty s); [reflexivity|].
  unfold is_url_expired_try, parse_expire_time. now rewrite Hd.
Qed.

(** X7.  A final [Z] stands for the offset [+00:00]: for a text without
    the letter Z, the timestamp written with a final Z and the one written
    with a final [+00:00] get the same answer. *)
Theorem is_url_expired_reads_Z_as_utc :
  forall (fromisoformat : string -> option datetime) (clk : Clock) (p : string),
    free_of "Z" p = true ->
    is_url_expired fromisoformat clk (Some (p ++ "Z"))
    = is_url_expired fromisoformat clk (Some (p ++ "+00:00")).
Proof.
  intros fromisoformat clk p Hfree.
  assert (HZ : Str.replace_char "Z" "+00:00" (p ++ "Z") = p ++ "+00:00").
  { now rewrite replace_char_app, (replace_char_free _ _ _ Hfree). }
  assert (Hoff : Str.replace_char "Z" "+00:00" (p ++ "+00:00") = p ++ "+00:00").
  { now rewrite replace_char_app, (replace_char_free _ _ _ Hfree). }
  assert (HneZ : p ++ "Z" <> "") by (destruct p; discriminate).
  assert (Hneoff : p ++ "+00:00" <> "") by (destruct p; discriminate).
  destruct (fromisoformat (p ++ "+00:00")) as [d|] eqn:E.
  - rewrite (is_url_expired_parsed _ clk _ d HneZ), (is_url_expired_parsed _ clk _ d Hneoff);
      [reflexivity | now rewrite Hoff | now rewrite HZ].
  - rewrite !is_url_expired_unparsed; [reflexivity | now rewrite Hoff | now rewrite HZ].
Qed.

Lemma is_url_expired_reads_Z_as_utc_witness :
  is_url_expired Sample.fromisoformat Sample.clock (Some "2020-01-01T00:00:00Z")
  = is_url_expired Sample.fromisoformat Sample.clock
      (Some "2020-01-01T00:00:00+00:00").
Proof.
  exact (is_url_expired_reads_Z_as_utc Sample.fromisoformat Sample.clock
           "2020-01-01T00:00:00" eq_refl).
Defined.

(** X8.  Expiry is for good: a timestamp that [is_url_expired] reports
    as expired is reported as expired at every later instant of the same
    machine. *)
Theorem is_url_expired_stays_expired :
  forall (fromisoformat : string -> option datetime) (clk clk' : Clock)
         (expires_at : option string),
    local_offset clk' = local_offset clk ->
    utc_now clk <= utc_now clk' ->
    is_url_expired fromisoformat clk expires_at = Return true ->
    is_url_expired fromisoformat clk' expires_at = Return true.
Proof.
  intros fromisoformat clk clk' [s|] Hoff Hlater; [|discriminate].
  destruct s as [|c s]; [discriminate|].
  destruct (fromisoformat (Str.replace_char "Z" "+00:00" (String c s)))
    as [d|] eqn:E.
  - assert (Hne : String c s <> "") by discriminate.
    rewrite !(is_url_expired_parsed _ _ _ d Hne E).
    intros [= H]. f_equal. apply Z.gtb_lt in H. apply Z.gtb_lt.
    unfold instant in *. rewrite Hoff. destruct (tzinfo d); lia.
  - now rewrite (is_url_expired_unparsed _ _ _ E).
Qed.

Lemma is_url_expired_stays_expired_witness :
  is_url_expired Sample.fromisoformat
    {| utc_now := 1717243200000001; local_offset := 7200000000 |}
    (Some "2020-01-01T00:00:00") = Return true.
Proof.
  apply (is_url_expired_stays_expired Sample.fromisoformat Sample.clock
           {| utc_now := 1717243200000001; local_offset := 7200000000 |}
           (Some "2020-01-01T00:00:00")).
  - reflexivity.
  - cbn. lia.
  - reflexivity.
Defined.

(* ------------------------------------------------------------------ *)
(** ** Rows under the methods of [Database]                            *)
(* ------------------------------------------------------------------ *)

Lemma same_record_refl r : same_record r r.
Proof. unfold same_record. repeat split; auto; lia. Qed.

Lemma same_record_trans r1 r2 r3 :
  same_record r1 r2 -> same_record r2 r3 -> same_record r1 r3.
Proof.
  unfold same_record.
  intros (Hi & Hc & Ht & He & Ha & Hk) (Hi' & Hc' & Ht' & He' & Ha' & Hk').
  repeat split; try congruence; auto; lia.
Qed.

Lemma run_op_row (o : Op) (d : Db.Database) (i : nat) (r : Db.URLRow) :
  nth_error (Db.urls d) i = Some r ->
  exists r',
    nth_error (Db.urls (run_op o d)) i = Some r' /\
    same_record r r' /\
    ((forall url, o <> OpUpdateUrl (Db.short_code r) url) ->
     Db.original_url r' = Db.original_url r).
Proof.
  intros Hi. rewrite run_op_urls.
  destruct o as [code|url_id|url code expires|code url|code|code| |code];
    try (exists r; split; [exact Hi | split; [apply same_record_refl | reflexivity]]).
  - destruct (existsb (Db.has_code code) (Db.urls d)).
    + exists r; split; [exact Hi | split; [apply same_record_refl | reflexivity]].
    + exists r. split; [|split; [apply same_record_refl | reflexivity]].
      rewrite nth_error_app1; [exact Hi|]. apply nth_error_Some. congruence.
  - exists (if Db.has_code code r then Db.set_original_url url r else r).
    split; [now rewrite nth_error_map, Hi|].
    destruct (Db.has_code code r) eqn:E.
    + split; [unfold same_record; cbn; repeat split; auto; lia|].
      intros Hne. apply has_code_iff in E. subst code. now destruct (Hne url).
    + split; [apply same_record_refl | reflexivity].
  - exists (if Db.has_code code r then Db.set_inactive r else r).
    split; [now rewrite nth_error_map, Hi|].
    destruct (Db.has_code code r);
      (split; [unfold same_record; cbn; repeat split; auto; lia | reflexivity]).
  - exists (if Db.has_code code r then Db.add_click r else r).
    unfold clicked. split; [now rewrite nth_error_map, Hi|].
    destruct (Db.has_code code r);
      (split; [unfold same_record; cbn; repeat split; auto; lia | reflexivity]).
Qed.

Lemma run_ops_row (ops : list Op) :
  forall (d : Db.Database) (i : nat) (r : Db.URLRow),
    nth_error (Db.urls d) i = Some r ->
    exists r',
      nth_error (Db.urls (run_ops ops d)) i = Some r' /\
      same_record r r' /\
      ((forall url, ~ In (OpUpdateUrl (Db.short_code r) url) ops) ->
       Db.original_url r' = Db.original_url r).
Proof.
  induction ops as [|o ops IH]; intros d i r Hi; cbn [run_ops].
  - exists r. split; [exact Hi | split; [apply same_record_refl | reflexivity]].
  - destruct (run_op_row o d i r Hi) as (r1 & H1 & Hsame1 & Hurl1).
    destruct (IH (run_op o d) i r1 H1) as (r2 & H2 & Hsame2 & Hurl2).
    exists r2. split; [exact H2|]. split; [eapply same_record_trans; eassumption|].
    intros Hnone.
    assert (Hcode : Db.short_code r1 = Db.short_code r) by apply Hsame1.
    rewrite Hurl2, Hurl1; [reflexivity | |].
    + intros url ->. apply (Hnone url). now left.
    + intros url Hin. rewrite Hcode in Hin. apply (Hnone url). now right.
Qed.

(** X9.  Whatever methods of [Database] are called, in whatever order,
    no row leaves the table or moves; a row keeps its id, code, creation
    time and expiration; an inactive row is never active again; its click
    count never goes down; and its URL changes only when [update_url] is
    called on its code. *)
Theorem rows_are_never_lost_or_reactivated :
  forall (ops : list Op) (d : Db.Database) (i : nat) (r : Db.URLRow),
    nth_error (Db.urls d) i = Some r ->
    exists r',
      nth_error (Db.urls (run_ops ops d)) i = Some r' /\
      same_record r r' /\
      ((forall url, ~ In (OpUpdateUrl (Db.short_code r) url) ops) ->
       Db.original_url r' = Db.original_url r).
Proof. exact run_ops_row. Qed.

Lemma rows_are_never_lost_or_reactivated_witness :
  exists r',
    nth_error (Db.urls (run_ops [OpDeleteUrl "abc123"; OpIncrementClicks "abc123";
                                 OpCreateUrl "https://x.org/" "abc123" None]
                          (Sample.database [Sample.row 1 "abc123" None 5 true])))
              0 = Some r' /\
    same_record (Sample.row 1 "abc123" None 5 true) r' /\
    ((forall url, ~ In (OpUpdateUrl "abc123" url)
                       [OpDeleteUrl "abc123"; OpIncrementClicks "abc123";
                        OpCreateUrl "https://x.org/" "abc123" None]) ->
     Db.original_url r' = "https://example.com/").
Proof.
  exact (rows_are_never_lost_or_reactivated
           [OpDeleteUrl "abc123"; OpIncrementClicks "abc123";
            OpCreateUrl "https://x.org/" "abc123" None]
           (Sample.database [Sample.row 1 "abc123" None 5 true])
           O (Sample.row 1 "abc123" None 5 true) eq_refl).
Defined.

(* ------------------------------------------------------------------ *)
(** ** Ids and the lookup by id                                        *)
(* ------------------------------------------------------------------ *)

Lemma run_op_last_rowid (o : Op) (d : Db.Database) :
  Db.last_rowid (run_op o d) =
  match o with
  | OpCreateUrl url code expires =>
      if existsb (Db.has_code code) (Db.urls d) then Db.last_rowid d
      else Db.last_rowid d + 1
  | _ => Db.last_rowid d
  end.
Proof.
  destruct o as [code|url_id|url code expires|code url|code|code| |code];
    cbn [run_op].
  - now rewrite get_url_by_code_run.
  - rewrite get_url_by_id_state. now destruct (Db.in_int64 url_id).
  - destruct (existsb (Db.has_code code) (Db.urls d)) eqn:E.
    + now rewrite (create_url_taken _ _ _ _ E).
    + now rewrite (create_url_run _ _ _ _ E).
  - unfold Db.update_url, Db.execute, bind at 1 2. cbn [Db.cursor_execute].
    unfold Db.sql_update, ret at 1. now rewrite get_url_by_code_run.
  - now rewrite delete_url_run.
  - now rewrite increment_clicks_run.
  - reflexivity.
  - now rewrite url_exists_run.
Qed.

Lemma ids_map_cond (p : Db.URLRow -> bool) (f : Db.URLRow -> Db.URLRow)
  (t : list Db.URLRow) (P : Db.URLRow -> Prop) :
  (forall r, Db.id (f r) = Db.id r) ->
  (forall r, P r -> P (f r)) ->
  NoDup (map Db.id t) -> Forall P t ->
  NoDup (map Db.id (map (fun r => if p r then f r else r) t)) /\
  Forall P (map (fun r => if p r then f r else r) t).
Proof.
  intros Hid HP Hnd Hall. split.
  - rewrite map_map.
    rewrite (map_ext _ Db.id); [exact Hnd|].
    intros r. destruct (p r); [apply Hid | reflexivity].
  - apply Forall_map. eapply Forall_impl; [|exact Hall].
    intros r Hr. destruct (p r); [now apply HP | exact Hr].
Qed.

Lemma run_op_ids_ok (o : Op) (d : Db.Database) : ids_ok d -> ids_ok (run_op o d).
Proof.
  unfold ids_ok. intros (Hpos & Hnd & Hall).
  rewrite run_op_urls, run_op_last_rowid.
  destruct o as [code|url_id|url code expires|code url|code|code| |code];
    try (repeat split; assumption);
    try (split; [assumption | apply ids_map_cond; auto]).
  destruct (existsb (Db.has_code code) (Db.urls d)); [repeat split; assumption|].
  split; [lia|]. split.
  - rewrite map_app. cbn [map inserted_row Db.id].
    apply NoDup_app; [assumption | repeat constructor; intros [] |].
    intros x Hx [<-|[]]. apply in_map_iff in Hx. destruct Hx as (r & Hr & Hin).
    rewrite Forall_forall in Hall. specialize (Hall r Hin). lia.
  - apply Forall_app. split.
    + eapply Forall_impl; [|exact Hall]. cbn. intros r Hr. lia.
    + repeat constructor; cbn; lia.
Qed.

Lemma run_ops_ids_ok (ops : list Op) (d : Db.Database) :
  ids_ok d -> ids_ok (run_ops ops d).
Proof.
  revert d. induction ops as [|o ops IH]; intros d H; cbn [run_ops];
    [exact H | apply IH; now apply run_op_ids_ok].
Qed.

Lemma init_db_ids_ok (ts : string) : ids_ok (Db.init_db ts).
Proof. unfold ids_ok. cbn. repeat split; [lia | constructor | constructor]. Qed.





(* ------------------------------------------------------------------ *)
(** ** The listing                                                     *)
(* ------------------------------------------------------------------ *)

Lemma ltb_asym (a b : string) : String.ltb a b = true -> String.ltb b a = false.
Proof.
  unfold String.ltb. rewrite (String.compare_antisym a b).
  now destruct (String.compare b a).
Qed.

Lemma insert_desc_perm (r : Db.URLRow) (l : list Db.URLRow) :
  Permutation (Db.insert_desc r l) (r :: l).
Proof.
  induction l as [|x l IH]; cbn; [reflexivity|].
  destruct (String.ltb (Db.created_at x) (Db.created_at r)); [reflexivity|].
  rewrite IH. apply perm_swap.
Qed.

Lemma insert_desc_sorted (r : Db.URLRow) (l : list Db.URLRow) :
  Sorted not_older l -> Sorted not_older (Db.insert_desc r l).
Proof.
  induction l as [|x l IH]; intros Hs; cbn.
  - repeat constructor.
  - destruct (String.ltb (Db.created_at x) (Db.created_at r)) eqn:E.
    + constructor; [exact Hs|]. constructor. unfold not_older.
      now apply ltb_asym.
    + inversion Hs as [|? ? Hs' Hhd]; subst.
      constructor; [now apply IH|].
      destruct l as [|y l]; cbn.
      * constructor. exact E.
      * destruct (String.ltb (Db.created_at y) (Db.created_at r)).
        -- constructor. exact E.
        -- inversion Hhd; subst. now constructor.
Qed.

Lemma order_by_created_at_desc_spec (t : list Db.URLRow) :
  Permutation (Db.order_by_created_at_desc t) t /\
  Sorted not_older (Db.order_by_created_at_desc t).
Proof.
  unfold Db.order_by_created_at_desc.
  induction t as [|r t [IHp IHs]]; cbn; [split; constructor|].
  split.
  - rewrite insert_desc_perm. now constructor.
  - now apply insert_desc_sorted.
Qed.

Lemma get_all_urls_run (d : Db.Database) :
  Db.get_all_urls d =
  (Return (Db.order_by_created_at_desc (filter Db.is_active (Db.urls d))),
   Db.sent Db.SelectAllActive d).
Proof.
  unfold Db.get_all_urls, Db.execute, bind, ret; cbn.
  now destruct (Db.order_by_created_at_desc (filter Db.is_active (Db.urls d))).
Qed.

(** X11.  [get_all_urls] returns the active rows of the table, each one
    once and no other row, ordered so that no row comes before a row
    created later; the table itself stays as it was. *)
Theorem get_all_urls_lists_active_rows_newest_first :
  forall d : Db.Database,
    exists rows,
      Db.get_all_urls d = (Return rows, Db.sent Db.SelectAllActive d) /\
      Permutation rows (filter Db.is_active (Db.urls d)) /\
      Sorted not_older rows /\
      (forall r, In r rows <-> In r (Db.urls d) /\ Db.is_active r = true).
Proof.
  intros d. exists (Db.order_by_created_at_desc (filter Db.is_active (Db.urls d))).
  destruct (order_by_created_at_desc_spec (filter Db.is_active (Db.urls d)))
    as [Hperm Hsorted].
  split; [apply get_all_urls_run|]. split; [exact Hperm|]. split; [exact Hsorted|].
  intros r. rewrite <- filter_In. split; intros H.
  - now apply (Permutation_in _ Hperm).
  - now apply (Permutation_in _ (Permutation_sym Hperm)).
Qed.

Example get_all_urls_on_three_rows :
  fst (Db.get_all_urls
         {| Db.urls :=
              [{| Db.id := 1; Db.original_url := "u1"; Db.short_code := "code1";
                  Db.created_at := "2024-05-01 10:00:00"; Db.expires_at := None;
                  Db.clicks := 0; Db.is_active := true |};
               {| Db.id := 2; Db.original_url := "u2"; Db.short_code := "code2";
                  Db.created_at := "2024-05-03 10:00:00"; Db.expires_at := None;
                  Db.clicks := 0; Db.is_active := false |};
               {| Db.id := 3; Db.original_url := "u3"; Db.short_code := "code3";
                  Db.created_at := "2024-05-02 10:00:00"; Db.expires_at := None;
                  Db.clicks := 0; Db.is_active := true |}];
            Db.last_rowid := 3; Db.current_timestamp := "2024-06-01 12:00:00";
            Db.executed := [] |})
  = Return [{| Db.id := 3; Db.original_url := "u3"; Db.short_code := "code3";
               Db.created_at := "2024-05-02 10:00:00"; Db.expires_at := None;
               Db.clicks := 0; Db.is_active := true |};
            {| Db.id := 1; Db.original_url := "u1"; Db.short_code := "code1";
               Db.created_at := "2024-05-01 10:00:00"; Db.expires_at := None;
               Db.clicks := 0; Db.is_active := true |}].
Proof. reflexivity. Qed.

(* ------------------------------------------------------------------ *)
(** ** Codes that no row carries, and codes that some row carries      *)
(* ------------------------------------------------------------------ *)

Lemma map_cond_absent (code : string) (f : Db.URLRow -> Db.URLRow)
  (t : list Db.URLRow) :
  existsb (Db.has_code code) t = false ->
  map (fun r => if Db.has_code code r then f r else r) t = t.
Proof.
  induction t as [|x t IH]; cbn; [reflexivity|].
  intros H. apply orb_false_iff in H. destruct H as [Hx Ht].
  now rewrite Hx, (IH Ht).
Qed.

Lemma find_updated (code url : string) (t : list Db.URLRow) :
  find (active_with_code code)
       (map (fun r => if Db.has_code code r then Db.set_original_url url r else r) t)
  = option_map (Db.set_original_url url) (find (active_with_code code) t).
Proof.
  induction t as [|x t IH]; cbn; [reflexivity|].
  unfold active_with_code at 1 3.
  destruct (Db.has_code code x) eqn:Ec.
  - unfold Db.has_code in *.
    change (Db.short_code (Db.set_original_url url x)) with (Db.short_code x).
    change (Db.is_active (Db.set_original_url url x)) with (Db.is_active x).
    rewrite Ec. cbn [andb]. destruct (Db.is_active x); [reflexivity | exact IH].
  - rewrite Ec. exact IH.
Qed.

Lemma update_url_run (code url : string) (d : Db.Database) :
  Db.update_url code url d =
  (Return (option_map (Db.set_original_url url)
             (find (active_with_code code) (Db.urls d))),
   Db.sent (Db.SelectActiveByCode code)
     (Db.with_urls
        (map (fun r => if Db.has_code code r then Db.set_original_url url r else r)
             (Db.urls d))
        (Db.sent (Db.UpdateOriginalUrl url code) d))).
Proof.
  unfold Db.update_url, Db.execute, bind at 1 2. cbn [Db.cursor_execute].
  unfold Db.sql_update, ret at 1. rewrite get_url_by_code_run.
  cbn [Db.with_urls Db.urls]. now rewrite find_updated.
Qed.

(** X12.  On a code that no row carries the writing methods are silent:
    [update_url] returns None, [delete_url] returns False,
    [increment_clicks] returns, the lookup finds nothing, and none of them
    changes a row. *)
Theorem methods_are_silent_on_an_unknown_code :
  forall (d : Db.Database) (code url : string),
    fst (Db.url_exists code d) = Return false ->
    Db.update_url code url d
    = (Return None,
       Db.sent (Db.SelectActiveByCode code)
         (Db.sent (Db.UpdateOriginalUrl url code) d)) /\
    Db.delete_url code d = (Return false, Db.sent (Db.UpdateInactive code) d) /\
    Db.increment_clicks code d = (Return tt, Db.sent (Db.UpdateClicks code) d) /\
    fst (Db.get_url_by_code code d) = Return None.
Proof.
  intros d code url Hfree. rewrite url_exists_run in Hfree. cbn [fst] in Hfree.
  assert (Hfresh : existsb (Db.has_code code) (Db.urls d) = false) by congruence.
  rewrite update_url_run, delete_url_run, increment_clicks_run,
    get_url_by_code_run.
  rewrite !(map_cond_absent _ _ _ Hfresh), (find_fresh_code _ _ Hfresh), Hfresh.
  destruct d as [t n ts ex]. repeat split.
Qed.

Lemma methods_are_silent_on_an_unknown_code_witness :
  let d := Sample.database [Sample.row 1 "abc123" None 5 true] in
  Db.update_url "nosuch" "https://x.org/" d
  = (Return None,
     Db.sent (Db.SelectActiveByCode "nosuch")
       (Db.sent (Db.UpdateOriginalUrl "https://x.org/" "nosuch") d)) /\
  Db.delete_url "nosuch" d = (Return false, Db.sent (Db.UpdateInactive "nosuch") d) /\
  Db.increment_clicks "nosuch" d = (Return tt, Db.sent (Db.UpdateClicks "nosuch") d) /\
  fst (Db.get_url_by_code "nosuch" d) = Return None.
Proof.
  exact (methods_are_silent_on_an_unknown_code
           (Sample.database [Sample.row 1 "abc123" None 5 true])
           "nosuch" "https://x.org/" eq_refl).
Defined.

(** X13.  [create_url] succeeds exactly on a code that no row carries.
    On the code of any row, a soft-deleted one included, the UNIQUE
    constraint makes it raise [IntegrityError], and table and counter stay
    as they were. *)
Theorem create_url_succeeds_iff_code_unused :
  forall (d : Db.Database) (url code : string) (expires : option string),
    ((exists r d1, Db.create_url url code expires d = (Return (Some r), d1)) <->
     fst (Db.url_exists code d) = Return false) /\
    (fst (Db.url_exists code d) = Return true ->
     Db.create_url url code expires d
     = (Raise (IntegrityError "UNIQUE constraint failed: urls.short_code"),
        Db.sent (Db.InsertUrl url code expires) d)).
Proof.
  intros d url code expires. rewrite url_exists_run. cbn [fst].
  destruct (existsb (Db.has_code code) (Db.urls d)) eqn:E.
  - rewrite (create_url_taken _ _ _ _ E). split; [|reflexivity].
    split; [intros (r & d1 & H); discriminate | discriminate].
  - rewrite (create_url_run _ _ _ _ E). split; [|discriminate].
    split; [reflexivity|]. intros _. eexists. eexists. reflexivity.
Qed.

Lemma create_url_succeeds_iff_code_unused_witness :
  Db.create_url "https://x.org/" "gone42" None
    (Sample.database [Sample.row 1 "gone42" None 7 false])
  = (Raise (IntegrityError "UNIQUE constraint failed: urls.short_code"),
     Db.sent (Db.InsertUrl "https://x.org/" "gone42" None)
       (Sample.database [Sample.row 1 "gone42" None 7 false])).
Proof.
  exact (proj2 (create_url_succeeds_iff_code_unused
                  (Sample.database [Sample.row 1 "gone42" None 7 false])
                  "https://x.org/" "gone42" None) eq_refl).
Defined.

(* ------------------------------------------------------------------ *)
(** ** The runs of the handlers                                        *)
(* ------------------------------------------------------------------ *)

Lemma delete_short_url_run (cfg : Settings) (code : string) (w : Urls.World) :
  validate_short_code cfg code = true ->
  Urls.delete_short_url cfg code w =
  ((if existsb (Db.has_code code) (Db.urls (Urls.db w))
    then Return {| Schemas.message := "URL deleted successfully";
                   Schemas.d_short_code := code |}
    else Raise (HTTPException 404 "Short URL not found")),
   {| Urls.db := Db.with_urls (deactivated code (Db.urls (Urls.db w)))
                   (Db.sent (Db.UpdateInactive code) (Urls.db w));
      Urls.random := Urls.random w |}).
Proof.
  intros Hvalid. unfold Urls.delete_short_url. rewrite Hvalid. cbn [negb].
  unfold bind. rewrite with_db_run, delete_url_run. cbn [fst snd].
  now destruct (existsb (Db.has_code code) (Db.urls (Urls.db w))).
Qed.

Lemma update_short_url_run (cfg : Settings) (code : string)
  (request : Models.Request) (url_data : Models.URLCreate) (w : Urls.World) :
  validate_short_code cfg code = true ->
  let url := normalize_url (Models.original_url url_data) in
  Urls.update_short_url cfg code request url_data w =
  match find (active_with_code code) (Db.urls (Urls.db w)) with
  | None => (Raise (HTTPException 404 "Short URL not found"),
             Urls.sent_by w (Db.SelectActiveByCode code))
  | Some r =>
      (Return (info_response request code (Db.set_original_url url r)),
       {| Urls.db :=
            Db.sent (Db.SelectActiveByCode code)
              (Db.with_urls
                 (map (fun x => if Db.has_code code x
                                then Db.set_original_url url x else x)
                      (Db.urls (Urls.db w)))
                 (Db.sent (Db.UpdateOriginalUrl url code)
                    (Db.sent (Db.SelectActiveByCode code) (Urls.db w))));
          Urls.random := Urls.random w |})
  end.
Proof.
  intros Hvalid. cbn zeta. unfold Urls.update_short_url.
  rewrite Hvalid. cbn [negb].
  rewrite (bind_run_return _ _ _ _ _ (with_db_get_url_by_code code w)).
  destruct (find (active_with_code code) (Db.urls (Urls.db w))) as [r|] eqn:Ef;
    [|reflexivity].
  unfold bind. rewrite with_db_run, update_url_run.
  cbn [fst snd Urls.db Urls.sent_by Db.sent Db.urls Urls.random].
  now rewrite Ef.
Qed.

Lemma get_url_info_run (cfg : Settings) (code : string)
  (request : Models.Request) (w : Urls.World) :
  validate_short_code cfg code = true ->
  Urls.get_url_info cfg code request w =
  (match find (active_with_code code) (Db.urls (Urls.db w)) with
   | None => Raise (HTTPException 404 "Short URL not found")
   | Some r => Return (info_response request code r)
   end,
   Urls.sent_by w (Db.SelectActiveByCode code)).
Proof.
  intros Hvalid. unfold Urls.get_url_info. rewrite Hvalid. cbn [negb].
  rewrite (bind_run_return _ _ _ _ _ (with_db_get_url_by_code code w)).
  now destruct (find (active_with_code code) (Db.urls (Urls.db w))).
Qed.

Lemma run_ops_app (a b : list Op) (d : Db.Database) :
  run_ops (a ++ b) d = run_ops b (run_ops a d).
Proof.
  revert d. induction a as [|o a IH]; intros d; cbn; [reflexivity | apply IH].
Qed.

Lemma run_ops_url_exists (l : list string) (d : Db.Database) :
  run_ops (map OpUrlExists l) d = sent_all (map Db.SelectOneByCode l) d.
Proof.
  revert d. induction l as [|c l IH]; intros d; cbn [map run_ops run_op].
  - destruct d. unfold sent_all. cbn. now rewrite app_nil_r.
  - rewrite url_exists_run. cbn [snd]. now rewrite IH, sent_all_cons.
Qed.

(** A handler acts on the store by calls of the methods of [Database]. *)
Lemma handle_runs_methods (isoformat : datetime -> string) (cfg : Settings)
  (c : Call) (w : Urls.World) :
  exists ops, Urls.db (handle isoformat cfg c w) = run_ops ops (Urls.db w).
Proof.
  destruct c as [request url_data|code|code|code request url_data|code request];
    cbn [handle].
  - assert (Hgen :
      Models.custom_code url_data = None \/ Models.custom_code url_data = Some "" ->
      exists ops,
        Urls.db (snd (Urls.create_short_url_endpoint isoformat cfg request url_data w))
        = run_ops ops (Urls.db w)).
    { intros Hcustom.
      rewrite (create_endpoint_generates isoformat cfg request url_data w Hcustom).
      set (tried := firstn (tries (Db.urls (Urls.db w))
                              (fst (candidates cfg 10 (Urls.random w))))
                      (fst (candidates cfg 10 (Urls.random w)))).
      destruct (find (unused (Db.urls (Urls.db w)))
                  (fst (candidates cfg 10 (Urls.random w)))) as [c|] eqn:Efind.
      - apply find_some in Efind. destruct Efind as [_ Hun].
        apply negb_true_iff in Hun.
        exists (map OpUrlExists tried
                ++ [OpCreateUrl (normalize_url (Models.original_url url_data)) c
                      (option_map isoformat (Models.expires_at url_data))])%list.
        rewrite run_ops_app, run_ops_url_exists. cbn [run_ops run_op snd Urls.db].
        now rewrite create_url_run.
      - exists (map OpUrlExists tried). now rewrite run_ops_url_exists. }
    destruct (Models.custom_code url_data) as [code|] eqn:Hcustom;
      [|now apply Hgen; left].
    destruct code as [|ch rest]; [now apply Hgen; right|].
    destruct (validate_short_code cfg (String ch rest)) eqn:Hvalid.
    + rewrite (create_endpoint_custom isoformat _ request _ w _ Hcustom Hvalid).
      destruct (existsb (Db.has_code (String ch rest)) (Db.urls (Urls.db w)))
        eqn:Et.
      * exists [OpUrlExists (String ch rest)]. cbn [run_ops run_op].
        now rewrite url_exists_run.
      * exists [OpUrlExists (String ch rest);
                OpCreateUrl (normalize_url (Models.original_url url_data))
                  (String ch rest)
                  (option_map isoformat (Models.expires_at url_data))].
        cbn [run_ops run_op]. rewrite url_exists_run. cbn [snd Urls.db].
        now rewrite create_url_run.
    + rewrite (invalid_custom_code_rejected isoformat _ request _ w _ Hcustom
                 ltac:(discriminate) Hvalid).
      now exists [].
  - destruct (validate_short_code cfg code) eqn:Hvalid.
    + destruct (find (active_with_code code) (Db.urls (Urls.db w))) as [r|] eqn:Ef.
      * rewrite (redirect_run_found _ _ _ _ Hvalid Ef).
        exists [OpGetUrlByCode code; OpIncrementClicks code].
        cbn [run_ops run_op]. now rewrite get_url_by_code_run, increment_clicks_run.
      * rewrite (redirect_run_missing _ _ _ Hvalid Ef).
        exists [OpGetUrlByCode code]. cbn [run_ops run_op].
        now rewrite get_url_by_code_run.
    + exists []. unfold Urls.redirect_to_url. now rewrite Hvalid.
  - destruct (validate_short_code cfg code) eqn:Hvalid.
    + rewrite (delete_short_url_run _ _ _ Hvalid).
      exists [OpDeleteUrl code]. cbn [run_ops run_op]. now rewrite delete_url_run.
    + exists []. unfold Urls.delete_short_url. now rewrite Hvalid.
  - destruct (validate_short_code cfg code) eqn:Hvalid.
    + rewrite (update_short_url_run _ _ request url_data _ Hvalid).
      destruct (find (active_with_code code) (Db.urls (Urls.db w))) as [r|] eqn:Ef.
      * exists [OpGetUrlByCode code;
                OpUpdateUrl code (normalize_url (Models.original_url url_data))].
        cbn [run_ops run_op]. now rewrite get_url_by_code_run, update_url_run.
      * exists [OpGetUrlByCode code]. cbn [run_ops run_op].
        now rewrite get_url_by_code_run.
    + exists []. unfold Urls.update_short_url. now rewrite Hvalid.
  - destruct (validate_short_code cfg code) eqn:Hvalid.
    + rewrite (get_url_info_run _ _ request _ Hvalid).
      exists [OpGetUrlByCode code]. cbn [run_ops run_op].
      now rewrite get_url_by_code_run.
    + exists []. unfold Urls.get_url_info. now rewrite Hvalid.
Qed.

Lemma serve_runs_methods (isoformat : datetime -> string) (cfg : Settings)
  (calls : list Call) :
  forall w, exists ops,
    Urls.db (serve isoformat cfg calls w) = run_ops ops (Urls.db w).
Proof.
  induction calls as [|c calls IH]; intros w; cbn [serve]; [now exists []|].
  destruct (IH (handle isoformat cfg c w)) as [ops2 H2].
  destruct (handle_runs_methods isoformat cfg c w) as [ops1 H1].
  exists (ops1 ++ ops2)%list. now rewrite run_ops_app, <- H1.
Qed.

(* ------------------------------------------------------------------ *)
(** ** Rows under the requests                                         *)
(* ------------------------------------------------------------------ *)

(** X14.  However many requests are served, no row leaves the table or
    moves; every row keeps its id, code, creation time and expiration; a
    soft-deleted row is never active again; and no click count goes
    down. *)
Theorem requests_never_remove_or_reactivate_rows :
  forall (isoformat : datetime -> string) (cfg : Settings) (calls : list Call)
         (w : Urls.World) (i : nat) (r : Db.URLRow),
    nth_error (Db.urls (Urls.db w)) i = Some r ->
    exists r',
      nth_error (Db.urls (Urls.db (serve isoformat cfg calls w))) i = Some r' /\
      same_record r r'.
Proof.
  intros isoformat cfg calls w i r Hi.
  destruct (serve_runs_methods isoformat cfg calls w) as [ops ->].
  destruct (run_ops_row ops _ i r Hi) as (r' & H & Hsame & _).
  now exists r'.
Qed.

Lemma requests_never_remove_or_reactivate_rows_witness :
  exists r',
    nth_error
      (Db.urls (Urls.db (serve Sample.isoformat settings
                           [CallDelete "gone42"; CallCreate Sample.request
                                                   (Sample.body (Some "gone42"));
                            CallRedirect "gone42"]
                           (Sample.world [Sample.row 1 "gone42" None 7 true]
                                         Sample.zeros))))
      0 = Some r' /\
    same_record (Sample.row 1 "gone42" None 7 true) r'.
Proof.
  exact (requests_never_remove_or_reactivate_rows Sample.isoformat settings
           [CallDelete "gone42"; CallCreate Sample.request
                                   (Sample.body (Some "gone42"));
            CallRedirect "gone42"]
           (Sample.world [Sample.row 1 "gone42" None 7 true] Sample.zeros)
           O (Sample.row 1 "gone42" None 7 true) eq_refl).
Defined.

(** X15.  A request that fails fails with an HTTPException of status
    400, 404, 409 or 500, never with a TypeError or a database error, and
    it leaves every row and the row counter as they were. *)
Theorem failed_request_changes_no_row :
  forall (isoformat : datetime -> string) (cfg : Settings) (c : Call)
         (w : Urls.World) (e : Exception),
    raised isoformat cfg c w = Some e ->
    (exists status detail,
        e = HTTPException status detail /\
        (status = 400 \/ status = 404 \/ status = 409 \/ status = 500)) /\
    Db.urls (Urls.db (handle isoformat cfg c w)) = Db.urls (Urls.db w) /\
    Db.last_rowid (Urls.db (handle isoformat cfg c w)) = Db.last_rowid (Urls.db w).
Proof.
  intros isoformat cfg c w e.
  destruct c as [request url_data|code|code|code request url_data|code request];
    cbn [handle raised].
  - assert (Hgen :
      Models.custom_code url_data = None \/ Models.custom_code url_data = Some "" ->
      failure (fst (Urls.create_short_url_endpoint isoformat cfg request url_data w))
      = Some e ->
      (exists status detail,
          e = HTTPException status detail /\
          (status = 400 \/ status = 404 \/ status = 409 \/ status = 500)) /\
      Db.urls (Urls.db (snd (Urls.create_short_url_endpoint
                               isoformat cfg request url_data w)))
      = Db.urls (Urls.db w) /\
      Db.last_rowid (Urls.db (snd (Urls.create_short_url_endpoint
                                     isoformat cfg request url_data w)))
      = Db.last_rowid (Urls.db w)).
    { intros Hcustom.
      rewrite (create_endpoint_generates isoformat cfg request url_data w Hcustom).
      destruct (find (unused (Db.urls (Urls.db w)))
                  (fst (candidates cfg 10 (Urls.random w)))); cbn [fst failure];
        [discriminate|].
      intros [= <-]. split; [|split; reflexivity].
      eexists. eexists. split; [reflexivity | auto]. }
    destruct (Models.custom_code url_data) as [code|] eqn:Hcustom;
      [|now apply Hgen; left].
    destruct code as [|ch rest]; [now apply Hgen; right|].
    destruct (validate_short_code cfg (String ch rest)) eqn:Hvalid.
    + rewrite (create_endpoint_custom isoformat _ request _ w _ Hcustom Hvalid).
      destruct (existsb (Db.has_code (String ch rest)) (Db.urls (Urls.db w)));
        cbn [fst failure]; [|discriminate].
      intros [= <-]. split; [|split; reflexivity].
      eexists. eexists. split; [reflexivity | auto].
    + rewrite (invalid_custom_code_rejected isoformat _ request _ w _ Hcustom
                 ltac:(discriminate) Hvalid).
      cbn [fst failure]. intros [= <-]. split; [|split; reflexivity].
      eexists. eexists. split; [reflexivity | auto].
  - destruct (validate_short_code cfg code) eqn:Hvalid.
    + destruct (find (active_with_code code) (Db.urls (Urls.db w))) as [r|] eqn:Ef.
      * rewrite (redirect_run_found _ _ _ _ Hvalid Ef). discriminate.
      * rewrite (redirect_run_missing _ _ _ Hvalid Ef). cbn [fst failure].
        intros [= <-]. split; [|split; reflexivity].
        eexists. eexists. split; [reflexivity | auto].
    + unfold Urls.redirect_to_url. rewrite Hvalid. cbn.
      intros [= <-]. split; [|split; reflexivity].
      eexists. eexists. split; [reflexivity | auto].
  - destruct (validate_short_code cfg code) eqn:Hvalid.
    + rewrite (delete_short_url_run _ _ _ Hvalid).
      destruct (existsb (Db.has_code code) (Db.urls (Urls.db w))) eqn:Et;
        cbn [fst failure]; [discriminate|].
      intros [= <-]. split; [|split; [|reflexivity]].
      * eexists. eexists. split; [reflexivity | auto].
      * cbn. apply (map_cond_absent _ _ _ Et).
    + unfold Urls.delete_short_url. rewrite Hvalid. cbn.
      intros [= <-]. split; [|split; reflexivity].
      eexists. eexists. split; [reflexivity | auto].
  - destruct (validate_short_code cfg code) eqn:Hvalid.
    + rewrite (update_short_url_run _ _ request url_data _ Hvalid).
      destruct (find (active_with_code code) (Db.urls (Urls.db w)));
        cbn [fst failure]; [discriminate|].
      intros [= <-]. split; [|split; reflexivity].
      eexists. eexists. split; [reflexivity | auto].
    + unfold Urls.update_short_url. rewrite Hvalid. cbn.
      intros [= <-]. split; [|split; reflexivity].
      eexists. eexists. split; [reflexivity | auto].
  - destruct (validate_short_code cfg code) eqn:Hvalid.
    + rewrite (get_url_info_run _ _ request _ Hvalid).
      destruct (find (active_with_code code) (Db.urls (Urls.db w)));
        cbn [fst failure]; [discriminate|].
      intros [= <-]. split; [|split; reflexivity].
      eexists. eexists. split; [reflexivity | auto].
    + unfold Urls.get_url_info. rewrite Hvalid. cbn.
      intros [= <-]. split; [|split; reflexivity].
      eexists. eexists. split; [reflexivity | auto].
Qed.

Lemma failed_request_changes_no_row_witness :
  let w := Sample.world [Sample.row 1 "abc123" None 5 true] Sample.zeros in
  (exists status detail,
      HTTPException 404 "Short URL not found" = HTTPException status detail /\
      (status = 400 \/ status = 404 \/ status = 409 \/ status = 500)) /\
  Db.urls (Urls.db (handle Sample.isoformat settings (CallDelete "nosuch") w))
  = Db.urls (Urls.db w) /\
  Db.last_rowid (Urls.db (handle Sample.isoformat settings (CallDelete "nosuch") w))
  = Db.last_rowid (Urls.db w).
Proof.
  exact (failed_request_changes_no_row Sample.isoformat settings
           (CallDelete "nosuch")
           (Sample.world [Sample.row 1 "abc123" None 5 true] Sample.zeros)
           (HTTPException 404 "Short URL not found") eq_refl).
Defined.

(* ------------------------------------------------------------------ *)
(** ** Requests one after the other                                    *)
(* ------------------------------------------------------------------ *)

(** X16.  Create, then info.  A create request with a custom code that
    passes validation and that no row carries is answered with that code;
    the info request on the code then reports the normalized URL, the
    expiration given as the column of NUMERIC affinity holds it, the
    engine's time of creation, 0 clicks and an active row. *)
Theorem create_then_info_round_trip :
  forall (isoformat : datetime -> string) (cfg : Settings)
         (request request' : Models.Request) (url_data : Models.URLCreate)
         (w : Urls.World) (code : string),
    Models.custom_code url_data = Some code ->
    validate_short_code cfg code = true ->
    fst (Db.url_exists code (Urls.db w)) = Return false ->
    let url := normalize_url (Models.original_url url_data) in
    let expires := option_map isoformat (Models.expires_at url_data) in
    let run := Urls.create_short_url_endpoint isoformat cfg request url_data w in
    fst run = Return (created_response request (Urls.db w) url code expires) /\
    fst (Urls.get_url_info cfg code request' (snd run))
    = Return {| Schemas.original_url := url;
                Schemas.short_code := code;
                Schemas.short_url :=
                  create_short_url (Urls.get_base_url request') code;
                Schemas.created_at := Db.current_timestamp (Urls.db w);
                Schemas.expires_at := option_map Db.numeric_affinity expires;
                Schemas.clicks := 0;
                Schemas.is_active := true |}.
Proof.
  intros isoformat cfg request request' url_data w code Hcustom Hvalid Hfree.
  cbn zeta. rewrite url_exists_run in Hfree. cbn [fst] in Hfree.
  assert (Hfresh : existsb (Db.has_code code) (Db.urls (Urls.db w)) = false)
    by congruence.
  rewrite (create_endpoint_custom isoformat _ request _ w _ Hcustom Hvalid), Hfresh.
  split; [reflexivity|].
  rewrite (get_url_info_run _ _ request' _ Hvalid).
  cbn [fst snd Urls.db after_create Db.urls Db.sent].
  rewrite find_snoc, (find_fresh_code _ _ Hfresh).
  unfold active_with_code, Db.has_code. cbn. now rewrite String.eqb_refl.
Qed.

Lemma create_then_info_round_trip_witness :
  fst (Urls.get_url_info settings "infotest" Sample.request
         (snd (Urls.create_short_url_endpoint Sample.isoformat settings
                 Sample.request (Sample.body (Some "infotest"))
                 (Sample.world [] Sample.zeros))))
  = Return {| Schemas.original_url := "https://example.com/";
              Schemas.short_code := "infotest";
              Schemas.short_url := "http://testserver/infotest";
              Schemas.created_at := "2024-06-01 12:00:00";
              Schemas.expires_at := None;
              Schemas.clicks := 0;
              Schemas.is_active := true |}.
Proof.
  exact (proj2 (create_then_info_round_trip Sample.isoformat settings
                  Sample.request Sample.request (Sample.body (Some "infotest"))
                  (Sample.world [] Sample.zeros) "infotest"
                  eq_refl eq_refl eq_refl)).
Defined.

Lemma serve_redirects (isoformat : datetime -> string) (cfg : Settings)
  (code : string) (n : nat) :
  validate_short_code cfg code = true ->
  forall (w : Urls.World) (r : Db.URLRow),
    find (active_with_code code) (Db.urls (Urls.db w)) = Some r ->
    exists r',
      find (active_with_code code)
        (Db.urls (Urls.db (serve isoformat cfg (repeat (CallRedirect code) n) w)))
      = Some r' /\
      Db.clicks r' = Db.clicks r + Z.of_nat n /\
      Db.original_url r' = Db.original_url r /\
      Db.created_at r' = Db.created_at r /\
      Db.expires_at r' = Db.expires_at r /\
      Db.is_active r' = Db.is_active r.
Proof.
  intros Hvalid. induction n as [|n IH]; intros w r Hfind.
  - exists r. cbn. repeat split; [exact Hfind | lia].
  - cbn [repeat serve handle].
    rewrite (redirect_run_found _ _ _ _ Hvalid Hfind). cbn [snd].
    destruct (IH {| Urls.db :=
                      Db.with_urls (clicked code (Db.urls (Urls.db w)))
                        (Db.sent (Db.UpdateClicks code)
                           (Db.sent (Db.SelectActiveByCode code) (Urls.db w)));
                    Urls.random := Urls.random w |}
                 (Db.add_click r)) as (r' & Hf & Hc & Hu & Ht & He & Ha).
    { cbn. now apply find_clicked. }
    exists r'. split; [exact Hf|]. cbn in Hc, Hu, Ht, He, Ha.
    repeat split; try assumption. lia.
Qed.

(** X17.  Redirects count.  After [n] redirects on a code that passes
    validation and has an active row, one more redirect still answers 302
    to the row's URL, and the info request reports the count the row had
    plus [n], everything else as it was. *)
Theorem redirects_are_counted :
  forall (isoformat : datetime -> string) (cfg : Settings) (code : string)
         (n : nat) (request : Models.Request) (w : Urls.World) (r : Db.URLRow),
    validate_short_code cfg code = true ->
    find (active_with_code code) (Db.urls (Urls.db w)) = Some r ->
    let wn := serve isoformat cfg (repeat (CallRedirect code) n) w in
    fst (Urls.redirect_to_url cfg code wn)
    = Return {| Schemas.url := Db.original_url r; Schemas.status_code := 302 |} /\
    fst (Urls.get_url_info cfg code request wn)
    = Return {| Schemas.original_url := Db.original_url r;
                Schemas.short_code := code;
                Schemas.short_url :=
                  create_short_url (Urls.get_base_url request) code;
                Schemas.created_at := Db.created_at r;
                Schemas.expires_at := Db.expires_at r;
                Schemas.clicks := Db.clicks r + Z.of_nat n;
                Schemas.is_active := Db.is_active r |}.
Proof.
  intros isoformat cfg code n request w r Hvalid Hfind. cbn zeta.
  destruct (serve_redirects isoformat cfg code n Hvalid w r Hfind)
    as (r' & Hf & Hc & Hu & Ht & He & Ha).
  rewrite (redirect_run_found _ _ _ _ Hvalid Hf).
  rewrite (get_url_info_run _ _ request _ Hvalid), Hf.
  cbn [fst]. unfold info_response. now rewrite Hc, Hu, Ht, He, Ha.
Qed.

Lemma redirects_are_counted_witness :
  let w := Sample.world [Sample.row 1 "abc123" None 0 true] Sample.zeros in
  let w3 := serve Sample.isoformat settings (repeat (CallRedirect "abc123") 3) w in
  fst (Urls.redirect_to_url settings "abc123" w3)
  = Return {| Schemas.url := "https://example.com/"; Schemas.status_code := 302 |} /\
  fst (Urls.get_url_info settings "abc123" Sample.request w3)
  = Return {| Schemas.original_url := "https://example.com/";
              Schemas.short_code := "abc123";
              Schemas.short_url := "http://testserver/abc123";
              Schemas.created_at := "2024-05-01 10:00:00";
              Schemas.expires_at := None;
              Schemas.clicks := 3;
              Schemas.is_active := true |}.
Proof.
  exact (redirects_are_counted Sample.isoformat settings "abc123" 3
           Sample.request
           (Sample.world [Sample.row 1 "abc123" None 0 true] Sample.zeros)
           (Sample.row 1 "abc123" None 0 true) eq_refl eq_refl).
Defined.

(** X18.  After a delete request has succeeded on a code, redirect, info
    and update on that code answer 404; the rows of that code are still in
    the table, at their places, inactive and otherwise as they were; every
    other row is untouched. *)
Theorem deleted_code_answers_404_everywhere :
  forall (cfg : Settings) (code : string) (request : Models.Request)
         (url_data : Models.URLCreate) (w : Urls.World),
    failure (fst (Urls.delete_short_url cfg code w)) = None ->
    let w1 := snd (Urls.delete_short_url cfg code w) in
    fst (Urls.redirect_to_url cfg code w1)
    = Raise (HTTPException 404 "Short URL not found") /\
    fst (Urls.get_url_info cfg code request w1)
    = Raise (HTTPException 404 "Short URL not found") /\
    fst (Urls.update_short_url cfg code request url_data w1)
    = Raise (HTTPException 404 "Short URL not found") /\
    (forall i r,
        nth_error (Db.urls (Urls.db w)) i = Some r ->
        nth_error (Db.urls (Urls.db w1)) i
        = Some (if String.eqb (Db.short_code r) code then Db.set_inactive r else r)).
Proof.
  intros cfg code request url_data w Hok. cbn zeta.
  destruct (validate_short_code cfg code) eqn:Hvalid.
  - rewrite (delete_short_url_run _ _ _ Hvalid). cbn [snd].
    set (w1 := {| Urls.db :=
                    Db.with_urls (deactivated code (Db.urls (Urls.db w)))
                      (Db.sent (Db.UpdateInactive code) (Urls.db w));
                  Urls.random := Urls.random w |}).
    assert (Hgone : find (active_with_code code) (Db.urls (Urls.db w1)) = None)
      by apply find_deactivated.
    rewrite (redirect_run_missing _ _ w1 Hvalid Hgone).
    rewrite (get_url_info_run _ _ request w1 Hvalid).
    rewrite (update_short_url_run _ _ request url_data w1 Hvalid).
    rewrite Hgone. repeat split; try reflexivity.
    intros i r Hi.
    change (Db.urls (Urls.db w1)) with (deactivated code (Db.urls (Urls.db w))).
    unfold deactivated. now rewrite nth_error_map, Hi.
  - unfold Urls.delete_short_url in Hok. rewrite Hvalid in Hok. discriminate.
Qed.

Lemma deleted_code_answers_404_everywhere_witness :
  let w := Sample.world [Sample.row 1 "abc123" None 5 true;
                         Sample.row 2 "other1" None 2 true] Sample.zeros in
  let w1 := snd (Urls.delete_short_url settings "abc123" w) in
  fst (Urls.redirect_to_url settings "abc123" w1)
  = Raise (HTTPException 404 "Short URL not found") /\
  Db.urls (Urls.db w1)
  = [Sample.row 1 "abc123" None 5 false; Sample.row 2 "other1" None 2 true].
Proof.
  destruct (deleted_code_answers_404_everywhere settings "abc123" Sample.request
              (Sample.body None)
              (Sample.world [Sample.row 1 "abc123" None 5 true;
                             Sample.row 2 "other1" None 2 true] Sample.zeros)
              eq_refl) as (Hredirect & _ & _ & _).
  cbn zeta. split; [exact Hredirect | reflexivity].
Defined.

Lemma run_ops_keeps_codes (ops : list Op) (d : Db.Database) (code : string) :
  In code (codes (Db.urls d)) -> In code (codes (Db.urls (run_ops ops d))).
Proof.
  intros Hin. apply in_map_iff in Hin. destruct Hin as (r & Hcode & Hin).
  apply In_nth_error in Hin. destruct Hin as [i Hi].
  destruct (run_ops_row ops d i r Hi) as (r' & Hi' & Hsame & _).
  apply in_map_iff. exists r'. split.
  - destruct Hsame as (_ & Hc & _). congruence.
  - eapply nth_error_In. exact Hi'.
Qed.

(** X19.  A code is never given out twice.  Once some row carries a code,
    be the row active or soft-deleted, every later create request with
    that code as custom code is answered 409, whatever requests were
    served in between. *)
Theorem used_code_is_never_reissued :
  forall (isoformat : datetime -> string) (cfg : Settings) (calls : list Call)
         (request : Models.Request) (url_data : Models.URLCreate)
         (w : Urls.World) (code : string),
    In code (codes (Db.urls (Urls.db w))) ->
    validate_short_code cfg code = true ->
    Models.custom_code url_data = Some code ->
    fst (Urls.create_short_url_endpoint isoformat cfg request url_data
           (serve isoformat cfg calls w))
    = Raise (HTTPException 409 "Short code already exists").
Proof.
  intros isoformat cfg calls request url_data w code Hin Hvalid Hcustom.
  rewrite (create_endpoint_custom isoformat _ request _ _ _ Hcustom Hvalid).
  destruct (serve_runs_methods isoformat cfg calls w) as [ops ->].
  apply (run_ops_keeps_codes ops) in Hin.
  apply in_map_iff in Hin. destruct Hin as (r & Hcode & Hr).
  assert (Ht : existsb (Db.has_code code) (Db.urls (run_ops ops (Urls.db w))) = true).
  { apply code_taken_iff. now exists r. }
  now rewrite Ht.
Qed.

Lemma used_code_is_never_reissued_witness :
  fst (Urls.create_short_url_endpoint Sample.isoformat settings Sample.request
         (Sample.body (Some "abc123"))
         (serve Sample.isoformat settings
            [CallDelete "abc123"; CallCreate Sample.request (Sample.body None)]
            (Sample.world [Sample.row 1 "abc123" None 5 true] Sample.counting)))
  = Raise (HTTPException 409 "Short code already exists").
Proof.
  apply (used_code_is_never_reissued Sample.isoformat settings
           [CallDelete "abc123"; CallCreate Sample.request (Sample.body None)]
           Sample.request (Sample.body (Some "abc123"))
           (Sample.world [Sample.row 1 "abc123" None 5 true] Sample.counting)
           "abc123").
  - cbn. now left.
  - reflexivity.
  - reflexivity.
Defined.

(** X20.  Every store the service gets into is well formed: the codes of
    its rows are pairwise different, each passes validation, the ids are
    pairwise different, and each lies between 1 and the AUTOINCREMENT
    counter. *)
Theorem reachable_store_is_well_formed :
  forall (isoformat : datetime -> string) (cfg : Settings) (w : Urls.World),
    settings_ok cfg ->
    reachable isoformat cfg w ->
    NoDup (codes (Db.urls (Urls.db w))) /\
    Forall (fun code => validate_short_code cfg code = true)
           (codes (Db.urls (Urls.db w))) /\
    NoDup (map Db.id (Db.urls (Urls.db w))) /\
    Forall (fun r => 1 <= Db.id r <= Db.last_rowid (Urls.db w))
           (Db.urls (Urls.db w)).
Proof.
  intros isoformat cfg w Hok Hreach.
  destruct (reachable_store_invariant isoformat cfg w Hok Hreach) as [Hnd Hvalid].
  split; [exact Hnd|]. split; [exact Hvalid|].
  assert (Hids : ids_ok (Urls.db w)).
  { clear Hnd Hvalid. induction Hreach as [ts g|c w Hreach IH|ts w Hreach IH].
    - apply init_db_ids_ok.
    - destruct (handle_runs_methods isoformat cfg c w) as [ops ->].
      now apply run_ops_ids_ok.
    - exact IH. }
  destruct Hids as (_ & Hnd' & Hall). now split.
Qed.

Lemma reachable_store_is_well_formed_witness :
  let w := handle Sample.isoformat settings (CallDelete "abcdef")
             (handle Sample.isoformat settings
                (CallCreate Sample.request (Sample.body None))
                {| Urls.db := Db.init_db "2024-06-01 12:00:00";
                   Urls.random := Sample.counting |}) in
  codes (Db.urls (Urls.db w)) = ["abcdef"] /\
  NoDup (codes (Db.urls (Urls.db w))) /\
  Forall (fun code => validate_short_code settings code = true)
         (codes (Db.urls (Urls.db w))) /\
  NoDup (map Db.id (Db.urls (Urls.db w))) /\
  Forall (fun r => 1 <= Db.id r <= Db.last_rowid (Urls.db w))
         (Db.urls (Urls.db w)).
Proof.
  cbn zeta. split; [reflexivity|].
  apply (reachable_store_is_well_formed Sample.isoformat settings).
  - exact default_settings_ok.
  - apply reachable_call. apply reachable_call. apply reachable_start.
Defined.

(** X21.  Update.  On a code that passes validation and has an active
    row the update request answers with the normalized new URL and the
    row's other fields; a redirect on the code then goes to the new URL;
    and no row of another code is changed. *)
Theorem update_changes_the_url_only :
  forall (cfg : Settings) (code : string) (request : Models.Request)
         (url_data : Models.URLCreate) (w : Urls.World) (r : Db.URLRow),
    validate_short_code cfg code = true ->
    find (active_with_code code) (Db.urls (Urls.db w)) = Some r ->
    let url := normalize_url (Models.original_url url_data) in
    let run := Urls.update_short_url cfg code request url_data w in
    fst run
    = Return {| Schemas.original_url := url;
                Schemas.short_code := code;
                Schemas.short_url :=
                  create_short_url (Urls.get_base_url request) code;
                Schemas.created_at := Db.created_at r;
                Schemas.expires_at := Db.expires_at r;
                Schemas.clicks := Db.clicks r;
                Schemas.is_active := true |} /\
    fst (Urls.redirect_to_url cfg code (snd run))
    = Return {| Schemas.url := url; Schemas.status_code := 302 |} /\
    (forall i x,
        nth_error (Db.urls (Urls.db w)) i = Some x ->
        Db.short_code x <> code ->
        nth_error (Db.urls (Urls.db (snd run))) i = Some x).
Proof.
  intros cfg code request url_data w r Hvalid Hfind. cbn zeta.
  rewrite (update_short_url_run _ _ request url_data _ Hvalid), Hfind.
  cbn [fst snd].
  assert (Hact : Db.is_active r = true).
  { apply find_some in Hfind. destruct Hfind as [_ H].
    unfold active_with_code in H. now apply andb_true_iff in H. }
  split; [unfold info_response; cbn; now rewrite Hact|].
  set (w1 := {| Urls.db := _; Urls.random := _ |}).
  assert (Hf1 : find (active_with_code code) (Db.urls (Urls.db w1))
                = Some (Db.set_original_url
                          (normalize_url (Models.original_url url_data)) r)).
  { cbn. now rewrite find_updated, Hfind. }
  split; [now rewrite (redirect_run_found _ _ w1 _ Hvalid Hf1)|].
  intros i x Hi Hne.
  change (Db.urls (Urls.db w1))
    with (map (fun x => if Db.has_code code x
                        then Db.set_original_url
                               (normalize_url (Models.original_url url_data)) x
                        else x) (Db.urls (Urls.db w))).
  rewrite nth_error_map, Hi. cbn.
  destruct (Db.has_code code x) eqn:E; [|reflexivity].
  apply has_code_iff in E. contradiction.
Qed.

Lemma update_changes_the_url_only_witness :
  let w := Sample.world [Sample.row 1 "abc123" None 5 true;
                         Sample.row 2 "other1" None 2 true] Sample.zeros in
  let body := {| Models.original_url := "updated.com";
                 Models.custom_code := None; Models.expires_at := None |} in
  fst (Urls.redirect_to_url settings "abc123"
         (snd (Urls.update_short_url settings "abc123" Sample.request body w)))
  = Return {| Schemas.url := "https://updated.com"; Schemas.status_code := 302 |}.
Proof.
  cbn zeta.
  exact (proj1 (proj2 (update_changes_the_url_only settings "abc123"
                         Sample.request
                         {| Models.original_url := "updated.com";
                            Models.custom_code := None;
                            Models.expires_at := None |}
                         (Sample.world [Sample.row 1 "abc123" None 5 true;
                                        Sample.row 2 "other1" None 2 true]
                                       Sample.zeros)
                         (Sample.row 1 "abc123" None 5 true)
                         eq_refl eq_refl))).
Defined.

(** X22.  The listing request answers with one entry per active row and
    none for a soft-deleted row; every entry is marked active and carries
    the short URL built from the request's base URL and the row's code; no
    entry comes before one created later; and the table stays as it
    was. *)
Theorem list_urls_shows_active_rows_only :
  forall (request : Models.Request) (w : Urls.World),
    exists rows,
      Urls.list_urls request w
      = (Return (map (fun r => info_response request (Db.short_code r) r) rows),
         Urls.sent_by w Db.SelectAllActive) /\
      Permutation rows (filter Db.is_active (Db.urls (Urls.db w))) /\
      Sorted not_older rows /\
      Forall (fun e => Schemas.is_active e = true /\
                       Schemas.short_url e
                       = create_short_url (Models.base_url request)
                           (Schemas.short_code e))
             (map (fun r => info_response request (Db.short_code r) r) rows).
Proof.
  intros request w.
  exists (Db.order_by_created_at_desc (filter Db.is_active (Db.urls (Urls.db w)))).
  destruct (order_by_created_at_desc_spec
              (filter Db.is_active (Db.urls (Urls.db w)))) as [Hperm Hsorted].
  split; [|split; [exact Hperm | split; [exact Hsorted|]]].
  - unfold Urls.list_urls, bind. now rewrite with_db_run, get_all_urls_run.
  - apply Forall_map. apply Forall_forall. intros r Hr.
    apply (Permutation_in _ Hperm) in Hr. apply filter_In in Hr.
    destruct Hr as [_ Hact]. cbn. split; [exact Hact|].
    unfold Urls.get_base_url, create_short_url, Str.rstrip_char.
    now rewrite rstrip_by_idem.
Qed.
